(** * Backend pattern configuration and lazy-extraction harness

    A shallow embedding of

    - [torch/ao/quantization/fx/backend_config/native.py]: the table of
      (pattern, metadata) entries of the native quantization backend, and
    - [test/lazy/test_extract_compiled_graph.py]: the harness that compares
      a compiled lazy graph with eager execution,

    followed by the properties of both that the specification states. *)

From Stdlib Require Import ZArith Lia String Ascii Bool DecimalString.
From stdpp Require Import base option list gmap strings.

Local Open Scope string_scope.

(** ** native.py *)

Module Native.

(** Operator identifiers.  In the source a pattern key is a Python object:
    an [nn.Module] subclass, a free function, or a [str] naming a tensor
    method.  Classes and functions compare by identity, so an identifier
    is represented by its qualified name with the import aliases of the
    file expanded ([F], [nni], [nniqat], [nnqat], [nnqr]); distinct names
    stand for distinct objects. *)
Inductive OpId : Type :=
| ModuleOp (qualname : string)
| FunctionOp (qualname : string)
| MethodNameOp (name : string).

#[global] Instance OpId_eq_dec : EqDecision OpId.
Proof. solve_decision. Defined.

(** A pattern is one identifier or a tuple of identifiers. *)
Inductive Pattern : Type :=
| PSingle (op : OpId)
| PTuple (ops : list OpId).

#[global] Instance Pattern_eq_dec : EqDecision Pattern.
Proof. solve_decision. Defined.

(** Modelled from the spec: [ObservationType], imported from
    [.observation_type], with the two strategies the file uses. *)
Inductive ObservationType : Type :=
| OUTPUT_USE_DIFFERENT_OBSERVER_AS_INPUT
| OUTPUT_SHARE_OBSERVER_WITH_INPUT.

#[global] Instance ObservationType_eq_dec : EqDecision ObservationType.
Proof. solve_decision. Defined.

Inductive DType : Type := quint8 | qint8 | float | float16.

#[global] Instance DType_eq_dec : EqDecision DType.
Proof. solve_decision. Defined.

(** A dtype config is a dict with the optional keys below. *)
Record DTypeConfig : Type := {
  input_dtype : option DType;
  weight_dtype : option DType;
  bias_dtype : option DType;
  output_dtype : option DType
}.

(** The value stored under ["dtype_configs"]: a list of dtype configs in
    most entries, a bare dtype config in the batchnorm entries. *)
Inductive DTypeConfigs : Type :=
| DTList (l : list DTypeConfig)
| DTBare (c : DTypeConfig).

(** Modelled from the spec: the two observers imported from
    [...observer], opaque objects selected by the table. *)
Inductive Observer : Type :=
| default_affine_fixed_qparams_observer
| default_symmetric_fixed_qparams_observer.

#[global] Instance Observer_eq_dec : EqDecision Observer.
Proof. solve_decision. Defined.

(** Modelled from the spec: the factory
    [FixedQParamsFakeQuantize.with_args(observer=o)], imported from
    [...fake_quantize], as the record of what it was built from. *)
Inductive FakeQuantizeFactory : Type :=
| FixedQParamsFakeQuantize_with_args (observer : Observer).

#[global] Instance FakeQuantizeFactory_eq_dec : EqDecision FakeQuantizeFactory.
Proof. solve_decision. Defined.

(** Modelled from the spec: the fusion function
    [reverse_sequential_wrapper2(fused)], imported from
    [...fuser_method_mappings], as the record of what it was built from. *)
Inductive FuserMethod : Type :=
| reverse_sequential_wrapper2 (fused : OpId).

(** One entry of the ["configs"] list.  The source builds a dict; every
    key other than ["pattern"] and ["dtype_configs"] may be absent. *)
Record BackendPatternConfig : Type := {
  pattern : Pattern;
  observation_type : option ObservationType;
  num_tensor_args_to_observation_type : option (gmap nat ObservationType);
  dtype_configs : DTypeConfigs;
  root_module : option OpId;
  reference_quantized_module_for_root : option OpId;
  qat_module : option OpId;
  fuser_method : option FuserMethod;
  _overwrite_output_fake_quantizer : option FakeQuantizeFactory;
  _overwrite_output_observer : option Observer
}.

(** The import aliases of the file. *)
Definition torch (name : string) : OpId := FunctionOp ("torch." ++ name).
Definition torch_C_nn (name : string) : OpId := FunctionOp ("torch._C._nn." ++ name).
Definition operator (name : string) : OpId := FunctionOp ("operator." ++ name).
Definition F (name : string) : OpId := FunctionOp ("torch.nn.functional." ++ name).
Definition nn (name : string) : OpId := ModuleOp ("torch.nn." ++ name).
Definition nni (name : string) : OpId := ModuleOp ("torch.nn.intrinsic." ++ name).
Definition nniqat (name : string) : OpId := ModuleOp ("torch.nn.intrinsic.qat." ++ name).
Definition nnqat (name : string) : OpId := ModuleOp ("torch.nn.qat." ++ name).
Definition nnqr (name : string) : OpId := ModuleOp ("torch.nn.quantized._reference." ++ name).

Record _ConvMetadata : Type := {
  root : OpId; reference : OpId; qat : OpId; relu : OpId;
  relu_qat : OpId; bn_qat : OpId; bn_relu_qat : OpId; func : OpId
}.

Definition _Conv1dMetadata : _ConvMetadata :=
  {| root := nn "Conv1d"; reference := nnqr "Conv1d"; qat := nnqat "Conv1d";
     relu := nni "ConvReLU1d"; relu_qat := nniqat "ConvReLU1d";
     bn_qat := nniqat "ConvBn1d"; bn_relu_qat := nniqat "ConvBnReLU1d";
     func := F "conv1d" |}.

Definition _Conv2dMetadata : _ConvMetadata :=
  {| root := nn "Conv2d"; reference := nnqr "Conv2d"; qat := nnqat "Conv2d";
     relu := nni "ConvReLU2d"; relu_qat := nniqat "ConvReLU2d";
     bn_qat := nniqat "ConvBn2d"; bn_relu_qat := nniqat "ConvBnReLU2d";
     func := F "conv2d" |}.

Definition _Conv3dMetadata : _ConvMetadata :=
  {| root := nn "Conv3d"; reference := nnqr "Conv3d"; qat := nnqat "Conv3d";
     relu := nni "ConvReLU3d"; relu_qat := nniqat "ConvReLU3d";
     bn_qat := nniqat "ConvBn3d"; bn_relu_qat := nniqat "ConvBnReLU3d";
     func := F "conv3d" |}.

(** *** Dtype configs *)

Definition weighted_op_int8_dtype_config : DTypeConfig :=
  {| input_dtype := Some quint8; weight_dtype := Some qint8;
     bias_dtype := Some float; output_dtype := Some quint8 |}.

Definition default_op_quint8_dtype_config : DTypeConfig :=
  {| input_dtype := Some quint8; weight_dtype := None;
     bias_dtype := None; output_dtype := Some quint8 |}.

Definition default_op_fp16_dtype_config : DTypeConfig :=
  {| input_dtype := Some float16; weight_dtype := Some float16;
     bias_dtype := None; output_dtype := Some float16 |}.

(** *** Operator configs *)

(** A dict with the three keys ["pattern"], ["observation_type"] and
    ["dtype_configs"]; the generators below extend it with the further
    keys their entries carry. *)
Definition entry (p : Pattern) (ot : ObservationType) (dc : DTypeConfigs)
  : BackendPatternConfig :=
  {| pattern := p; observation_type := Some ot;
     num_tensor_args_to_observation_type := None; dtype_configs := dc;
     root_module := None; reference_quantized_module_for_root := None;
     qat_module := None; fuser_method := None;
     _overwrite_output_fake_quantizer := None;
     _overwrite_output_observer := None |}.

Definition with_root (r ref : OpId) (c : BackendPatternConfig) : BackendPatternConfig :=
  {| pattern := pattern c; observation_type := observation_type c;
     num_tensor_args_to_observation_type := num_tensor_args_to_observation_type c;
     dtype_configs := dtype_configs c;
     root_module := Some r; reference_quantized_module_for_root := Some ref;
     qat_module := qat_module c; fuser_method := fuser_method c;
     _overwrite_output_fake_quantizer := _overwrite_output_fake_quantizer c;
     _overwrite_output_observer := _overwrite_output_observer c |}.

Definition with_qat (q : OpId) (c : BackendPatternConfig) : BackendPatternConfig :=
  {| pattern := pattern c; observation_type := observation_type c;
     num_tensor_args_to_observation_type := num_tensor_args_to_observation_type c;
     dtype_configs := dtype_configs c;
     root_module := root_module c;
     reference_quantized_module_for_root := reference_quantized_module_for_root c;
     qat_module := Some q; fuser_method := fuser_method c;
     _overwrite_output_fake_quantizer := _overwrite_output_fake_quantizer c;
     _overwrite_output_observer := _overwrite_output_observer c |}.

Definition with_fuser (f : FuserMethod) (c : BackendPatternConfig) : BackendPatternConfig :=
  {| pattern := pattern c; observation_type := observation_type c;
     num_tensor_args_to_observation_type := num_tensor_args_to_observation_type c;
     dtype_configs := dtype_configs c;
     root_module := root_module c;
     reference_quantized_module_for_root := reference_quantized_module_for_root c;
     qat_module := qat_module c; fuser_method := Some f;
     _overwrite_output_fake_quantizer := _overwrite_output_fake_quantizer c;
     _overwrite_output_observer := _overwrite_output_observer c |}.

Definition _get_default_op_backend_config (op : OpId) (dtype_configs : list DTypeConfig)
  : BackendPatternConfig :=
  entry (PSingle op) OUTPUT_USE_DIFFERENT_OBSERVER_AS_INPUT (DTList dtype_configs).

Definition _DEFAULT_OP_INT8_CONFIGS : list BackendPatternConfig :=
  (fun op => _get_default_op_backend_config op [default_op_quint8_dtype_config]) <$>
  [ nn "ConvTranspose1d";
    nn "ConvTranspose2d";
    nn "ELU";
    nn "LeakyReLU";
    nn "Hardswish";
    nn "InstanceNorm1d";
    nn "InstanceNorm2d";
    nn "InstanceNorm3d";
    nn "LayerNorm";
    nn "Dropout";
    F "elu";
    F "hardswish";
    F "instance_norm";
    F "leaky_relu";
    F "dropout";
    F "layer_norm" ].

Definition _get_linear_configs (_ : unit) : list BackendPatternConfig :=
  let observation_type := OUTPUT_USE_DIFFERENT_OBSERVER_AS_INPUT in
  let dtype_configs := DTList [weighted_op_int8_dtype_config] in
  let e p := entry p observation_type dtype_configs in
  [ (* (1) single linear modules/functions *)
    with_qat (nnqat "Linear")
      (with_root (nn "Linear") (nnqr "Linear") (e (PSingle (nn "Linear"))));
    with_root (nn "Linear") (nnqr "Linear") (e (PSingle (nnqat "Linear")));
    e (PSingle (F "linear"));
    (* (2) linear + relu *)
    with_qat (nniqat "LinearReLU")
      (with_root (nn "Linear") (nnqr "Linear") (e (PSingle (nni "LinearReLU"))));
    with_root (nn "Linear") (nnqr "Linear") (e (PSingle (nniqat "LinearReLU")));
    with_fuser (reverse_sequential_wrapper2 (nni "LinearReLU"))
      (e (PTuple [nn "ReLU"; nn "Linear"]));
    with_fuser (reverse_sequential_wrapper2 (nni "LinearReLU"))
      (e (PTuple [F "relu"; nn "Linear"]));
    e (PTuple [nn "ReLU"; F "linear"]);
    e (PTuple [F "relu"; F "linear"]);
    (* (3) linear + batchnorm *)
    with_qat (nniqat "LinearBn1d")
      (with_root (nn "Linear") (nnqr "Linear") (e (PSingle (nni "LinearBn1d"))));
    with_root (nn "Linear") (nnqr "Linear") (e (PSingle (nniqat "LinearBn1d"))) ].

Definition _get_conv_configs (_ : unit) : list BackendPatternConfig :=
  let observation_type := OUTPUT_USE_DIFFERENT_OBSERVER_AS_INPUT in
  let dtype_configs := DTList [weighted_op_int8_dtype_config] in
  let e p := entry p observation_type dtype_configs in
  convs ← [_Conv1dMetadata; _Conv2dMetadata; _Conv3dMetadata];
  [ (* (1) single conv modules/functions *)
    with_qat (qat convs)
      (with_root (root convs) (reference convs) (e (PSingle (root convs))));
    with_root (root convs) (reference convs) (e (PSingle (qat convs)));
    e (PSingle (func convs));
    (* (2) conv + relu *)
    with_qat (relu_qat convs)
      (with_root (root convs) (reference convs) (e (PSingle (relu convs))));
    with_root (root convs) (reference convs) (e (PSingle (relu_qat convs)));
    with_fuser (reverse_sequential_wrapper2 (relu convs))
      (e (PTuple [nn "ReLU"; root convs]));
    with_fuser (reverse_sequential_wrapper2 (relu convs))
      (e (PTuple [F "relu"; root convs]));
    e (PTuple [nn "ReLU"; func convs]);
    e (PTuple [F "relu"; func convs]);
    (* (3) conv + batchnorm (+ relu) *)
    with_root (root convs) (reference convs) (e (PSingle (bn_qat convs)));
    with_root (root convs) (reference convs) (e (PSingle (bn_relu_qat convs))) ].

(** An entry of the binary-op family: it has no ["observation_type"] key
    and carries the mapping instead. *)
Definition binary_entry (p : Pattern) (mapping : gmap nat ObservationType)
  (dc : DTypeConfigs) : BackendPatternConfig :=
  {| pattern := p; observation_type := None;
     num_tensor_args_to_observation_type := Some mapping; dtype_configs := dc;
     root_module := None; reference_quantized_module_for_root := None;
     qat_module := None; fuser_method := None;
     _overwrite_output_fake_quantizer := None;
     _overwrite_output_observer := None |}.

Definition _get_binary_op_configs (_ : unit) : list BackendPatternConfig :=
  let num_tensor_args_to_observation_type_mapping : gmap nat ObservationType :=
    {[ 0 := OUTPUT_USE_DIFFERENT_OBSERVER_AS_INPUT;
       1 := OUTPUT_SHARE_OBSERVER_WITH_INPUT;
       2 := OUTPUT_USE_DIFFERENT_OBSERVER_AS_INPUT ]} in
  let dtype_configs := DTList [weighted_op_int8_dtype_config] in
  op_with_quantized_bop_scalar_variant ←
    [operator "add"; torch "add"; operator "mul"; torch "mul"];
  [ binary_entry (PTuple [nn "ReLU"; op_with_quantized_bop_scalar_variant])
      num_tensor_args_to_observation_type_mapping dtype_configs;
    binary_entry (PTuple [F "relu"; op_with_quantized_bop_scalar_variant])
      num_tensor_args_to_observation_type_mapping dtype_configs;
    binary_entry (PTuple [torch "relu"; op_with_quantized_bop_scalar_variant])
      num_tensor_args_to_observation_type_mapping dtype_configs;
    binary_entry (PSingle op_with_quantized_bop_scalar_variant)
      num_tensor_args_to_observation_type_mapping dtype_configs ].

Definition _get_fixed_qparams_op_configs (_ : unit) : list BackendPatternConfig :=
  '(fixed_qparam_op, output_observer) ←
    [ (nn "Hardsigmoid", default_affine_fixed_qparams_observer);
      (F "hardsigmoid", default_affine_fixed_qparams_observer);
      (MethodNameOp "hardsigmoid", default_affine_fixed_qparams_observer);
      (MethodNameOp "hardsigmoid_", default_affine_fixed_qparams_observer);
      (nn "Sigmoid", default_affine_fixed_qparams_observer);
      (torch "sigmoid", default_affine_fixed_qparams_observer);
      (MethodNameOp "sigmoid", default_affine_fixed_qparams_observer);
      (MethodNameOp "sigmoid_", default_affine_fixed_qparams_observer);
      (nn "Tanh", default_symmetric_fixed_qparams_observer);
      (torch "tanh", default_symmetric_fixed_qparams_observer);
      (MethodNameOp "tanh", default_symmetric_fixed_qparams_observer);
      (MethodNameOp "tanh_", default_symmetric_fixed_qparams_observer) ];
  [ {| pattern := PSingle fixed_qparam_op;
       observation_type := Some OUTPUT_USE_DIFFERENT_OBSERVER_AS_INPUT;
       num_tensor_args_to_observation_type := None;
       dtype_configs := DTList [weighted_op_int8_dtype_config];
       root_module := None; reference_quantized_module_for_root := None;
       qat_module := None; fuser_method := None;
       _overwrite_output_fake_quantizer :=
         Some (FixedQParamsFakeQuantize_with_args output_observer);
       _overwrite_output_observer := Some output_observer |} ].

Definition _CAT_CONFIG : BackendPatternConfig :=
  entry (PSingle (torch "cat")) OUTPUT_SHARE_OBSERVER_WITH_INPUT
    (DTList [default_op_quint8_dtype_config]).

(** The two [(ReLU, bn)] entries of the first loop are commented out in
    the source; [bn_to_fused_bn] is built and not read. *)
Definition _get_bn_configs (_ : unit) : list BackendPatternConfig :=
  let bn_to_fused_bn : list (OpId * OpId) :=
    [ (nn "BatchNorm2d", nni "BNReLU2d"); (nn "BatchNorm3d", nni "BNReLU3d") ] in
  (bn ← [nn "BatchNorm2d"; nn "BatchNorm3d"];
   [ entry (PSingle bn) OUTPUT_USE_DIFFERENT_OBSERVER_AS_INPUT
       (DTBare default_op_quint8_dtype_config) ])
  ++
  (fused_bn ← [nni "BNReLU2d"; nni "BNReLU3d"];
   [ entry (PSingle fused_bn) OUTPUT_USE_DIFFERENT_OBSERVER_AS_INPUT
       (DTBare default_op_quint8_dtype_config) ]).

Definition _get_share_qprams_op_backend_config (op : OpId) : BackendPatternConfig :=
  entry (PSingle op) OUTPUT_SHARE_OBSERVER_WITH_INPUT
    (DTList [default_op_quint8_dtype_config]).

Definition share_qparams_ops : list OpId :=
  [ nn "AdaptiveAvgPool1d";
    nn "AdaptiveAvgPool2d";
    nn "AdaptiveAvgPool3d";
    nn "AvgPool1d";
    nn "AvgPool2d";
    nn "AvgPool3d";
    nn "Hardtanh";
    nn "Identity";
    nn "MaxPool1d";
    nn "MaxPool2d";
    nn "MaxPool3d";
    nn "ReLU";
    nn "ReLU6";
    torch "adaptive_avg_pool1d";
    F "adaptive_avg_pool2d";
    F "adaptive_avg_pool3d";
    F "hardtanh";
    F "hardtanh_";
    F "interpolate";
    F "max_pool1d";
    F "max_pool2d";
    F "max_pool3d";
    F "relu";
    F "relu6";
    torch "avg_pool1d";
    torch_C_nn "avg_pool2d";
    torch_C_nn "avg_pool3d";
    torch "clamp";
    torch "flatten";
    torch "mean";
    torch "repeat_interleave";
    torch "transpose";
    torch "squeeze";
    torch "stack";
    torch "unsqueeze";
    operator "floordiv";
    MethodNameOp "contiguous";
    MethodNameOp "clamp";
    MethodNameOp "detach";
    MethodNameOp "detach_";
    MethodNameOp "mean";
    MethodNameOp "permute";
    MethodNameOp "repeat";
    MethodNameOp "repeat_interleave";
    MethodNameOp "reshape";
    MethodNameOp "resize_";
    MethodNameOp "relu";
    MethodNameOp "relu_";
    MethodNameOp "shape";
    MethodNameOp "size";
    MethodNameOp "squeeze";
    MethodNameOp "squeeze_";
    MethodNameOp "transpose";
    MethodNameOp "unsqueeze";
    MethodNameOp "unsqueeze_";
    MethodNameOp "view" ].

Definition _get_share_qparams_op_configs (_ : unit) : list BackendPatternConfig :=
  _get_share_qprams_op_backend_config <$> share_qparams_ops.

(** *** The table *)

(** A Python list display: each item is one element or a starred list
    that is spliced in place. *)
Inductive DisplayItem (A : Type) : Type :=
| Item (a : A)
| Starred (l : list A).
Arguments Item {A} a.
Arguments Starred {A} l.

Definition list_display {A : Type} (items : list (DisplayItem A)) : list A :=
  it ← items; match it with Item a => [a] | Starred l => l end.

Record BackendConfigDict : Type := {
  name : string;
  configs : list BackendPatternConfig
}.

Definition get_native_backend_config_dict (_ : unit) : BackendConfigDict :=
  {| name := "native";
     configs := list_display
       [ Starred _DEFAULT_OP_INT8_CONFIGS;
         Starred (_get_linear_configs ());
         Starred (_get_conv_configs ());
         Starred (_get_binary_op_configs ());
         Starred (_get_fixed_qparams_op_configs ());
         Item _CAT_CONFIG;
         Starred (_get_bn_configs ());
         Starred (_get_share_qparams_op_configs ()) ] |}.

(** The table is the list display above and nothing else.  [resolve] is
    that display over an arbitrary ordered list of generators, each called
    once and spliced in order; its result type leaves room for the error
    the specification names, which no path of the file constructs. *)
Inductive ResolveError : Type :=
| DuplicatePatternError (p : Pattern).

Inductive outcome (A : Type) : Type :=
| Returns (a : A)
| Raises (e : ResolveError).
Arguments Returns {A} a.
Arguments Raises {A} e.

Definition resolve (generators : list (unit -> list BackendPatternConfig))
  : outcome (list BackendPatternConfig) :=
  Returns (list_display ((fun g => Starred (g ())) <$> generators)).

(** The parts of the native table as an ordered list of generators. *)
Definition native_generators : list (unit -> list BackendPatternConfig) :=
  [ (fun _ => _DEFAULT_OP_INT8_CONFIGS);
    _get_linear_configs;
    _get_conv_configs;
    _get_binary_op_configs;
    _get_fixed_qparams_op_configs;
    (fun _ => [_CAT_CONFIG]);
    _get_bn_configs;
    _get_share_qparams_op_configs ].

(** Number of entries of a table that carry the pattern [p]. *)
Definition occurrences (p : Pattern) (cs : list BackendPatternConfig) : nat :=
  length (filter (fun c => pattern c = p) cs).

(** *** Vocabulary of the properties *)

(** The patterns of the binary-op entries: each of the four operators as
    the tail of the three relu chains and on its own. *)
Definition binary_ops : list OpId :=
  [operator "add"; torch "add"; operator "mul"; torch "mul"].

Definition binary_op_patterns : list Pattern :=
  bop ← binary_ops;
  [ PTuple [nn "ReLU"; bop]; PTuple [F "relu"; bop];
    PTuple [torch "relu"; bop]; PSingle bop ].

(** The strategy per number of tensor arguments. *)
Definition observation_for (num_tensor_args : nat) : option ObservationType :=
  match num_tensor_args with
  | 0 => Some OUTPUT_USE_DIFFERENT_OBSERVER_AS_INPUT
  | 1 => Some OUTPUT_SHARE_OBSERVER_WITH_INPUT
  | 2 => Some OUTPUT_USE_DIFFERENT_OBSERVER_AS_INPUT
  | _ => None
  end.

(** The module, function, method-name and in-place method-name variants
    of the three fixed-qparams operators. *)
Definition hardsigmoid_variants : list OpId :=
  [nn "Hardsigmoid"; F "hardsigmoid"; MethodNameOp "hardsigmoid"; MethodNameOp "hardsigmoid_"].

Definition sigmoid_variants : list OpId :=
  [nn "Sigmoid"; torch "sigmoid"; MethodNameOp "sigmoid"; MethodNameOp "sigmoid_"].

Definition tanh_variants : list OpId :=
  [nn "Tanh"; torch "tanh"; MethodNameOp "tanh"; MethodNameOp "tanh_"].

#[global] Instance DTypeConfig_eq_dec : EqDecision DTypeConfig.
Proof. solve_decision. Defined.

#[global] Instance DTypeConfigs_eq_dec : EqDecision DTypeConfigs.
Proof. solve_decision. Defined.

(** The entries of the native table. *)
Definition native_configs : list BackendPatternConfig :=
  configs (get_native_backend_config_dict ()).

(** The three relu identifiers that head a chain pattern. *)
Definition relu_variants : list OpId := [nn "ReLU"; F "relu"; torch "relu"].

(** The class names of the modules that occur as a root module. *)
Definition root_names : list string := ["Linear"; "Conv1d"; "Conv2d"; "Conv3d"].

(** The fused module class a fuser method was built from. *)
Definition fused_module (f : FuserMethod) : OpId :=
  match f with reverse_sequential_wrapper2 m => m end.

Definition is_single (p : Pattern) : bool :=
  match p with
  | PSingle _ => true
  | PTuple _ => false
  end.

Definition pattern_ops (p : Pattern) : list OpId :=
  match p with
  | PSingle op => [op]
  | PTuple ops => ops
  end.

End Native.

(** ** test_extract_compiled_graph.py *)

Module Harness.

Inductive exn : Type :=
| RuntimeError (msg : string)
| TypeError (msg : string).

Inductive result (A : Type) : Type :=
| Ok (a : A)
| Raise (e : exn).
Arguments Ok {A} a.
Arguments Raise {A} e.

(** [str(n)] for the two integers the harness formats. *)
Definition str_nat (n : nat) : string := NilZero.string_of_uint (Nat.to_uint n).
Definition str_Z (z : Z) : string := NilZero.string_of_int (Z.to_int z).

Section Torch.

(** What the harness takes from outside: tensors, the state of the random
    generator behind [torch.randn], and the value kept by
    [torch._lazy.config] for the force-fallback setting. *)
Context {Tensor Rng Cfg : Type}.

(** What a module call can return: a tensor, a tuple or list of values, or
    anything else. *)
#[warnings="-register-all"]
Inductive Value : Type :=
| VTensor (t : Tensor)
| VTuple (items : list Value)
| VList (items : list Value)
| VOther.

(** Process-wide state the harness reads and writes. *)
Record World : Type := {
  force_fallback : Cfg;
  rng : Rng
}.

(** Computations over the process state that return or raise. *)
Definition M (A : Type) : Type := World -> result A * World.

Definition ret {A : Type} (a : A) : M A := fun w => (Ok a, w).

Definition raise {A : Type} (e : exn) : M A := fun w => (Raise e, w).

Definition bind {A B : Type} (m : M A) (k : A -> M B) : M B :=
  fun w => match m w with
           | (Ok a, w') => k a w'
           | (Raise e, w') => (Raise e, w')
           end.

Definition lift {A : Type} (r : result A) : M A := fun w => (r, w).

Notation "'let!' x ':=' m 'in' k" := (bind m (fun x => k))
  (at level 10, x name, m at level 100, k at level 200).
Notation "'do!' m 'in' k" := (bind m (fun _ => k))
  (at level 10, m at level 100, k at level 200).

(** [try: body finally: final]. *)
Definition try_finally {A : Type} (body : M A) (final : M unit) : M A :=
  fun w => match body w with
           | (r, w1) => match final w1 with
                        | (Ok _, w2) => (r, w2)
                        | (Raise e, w2) => (Raise e, w2)
                        end
           end.

(** Modelled from the spec: [config.get_force_fallback()] and
    [config.set_force_fallback(v)] of [torch._lazy.config], the accessors
    of one process-wide setting. *)
Definition get_force_fallback : M Cfg := fun w => (Ok (force_fallback w), w).

Definition set_force_fallback (v : Cfg) : M unit :=
  fun w => (Ok tt, {| force_fallback := v; rng := rng w |}).

(** A [@contextmanager] generator with one [yield]: the code before the
    [yield] runs on entry, the [with] block runs at the [yield], and an
    exception of the block is raised at the [yield]. *)
Definition ContextManager : Type := forall A : Type, M A -> M A.

Definition force_fallback_ctx_mgr (fallback_op : Cfg) : ContextManager :=
  fun A block =>
    let! oldconfig := get_force_fallback in
    do! set_force_fallback fallback_op in
    try_finally block (set_force_fallback oldconfig).

Definition nop_ctx_mgr : ContextManager :=
  fun A block => try_finally block (ret tt).

(** External functions. *)
Variable randn : Rng -> Tensor * Rng.
Variable torch_allclose : Tensor -> Tensor -> result bool.
Variable re_search : string -> string -> bool.

(** An [nn.Module]: the number of parameters of [forward] and [forward]. *)
Record NNModule : Type := {
  nparams : nat;
  forward : list Tensor -> result Value
}.

Definition CompiledModule : Type := list Tensor -> result Value.

(** [extract_compiled_graph(fx.symbolic_trace(mod), args)], which reads
    the force-fallback setting. *)
Variable extract_compiled_graph : NNModule -> list Tensor -> Cfg -> result CompiledModule.

Definition torch_randn : M Tensor :=
  fun w => let '(t, g) := randn (rng w) in
           (Ok t, {| force_fallback := force_fallback w; rng := g |}).

Fixpoint randn_times (n : nat) : M (list Tensor) :=
  match n with
  | O => ret []
  | S n' =>
      let! t := torch_randn in
      let! ts := randn_times n' in
      ret (t :: ts)
  end.

Definition gen_rand_args (mod_ : NNModule) : M (list Tensor) :=
  randn_times (nparams mod_).

Definition unwrap (cont : Value) : Value :=
  match cont with
  | VTuple [x] => x
  | VList [x] => x
  | _ => cont
  end.

(** [torch.allclose] applied to two values: a [TypeError] unless both are
    tensors. *)
Definition torch_allclose_values (a b : Value) : result bool :=
  match a, b with
  | VTensor x, VTensor y => torch_allclose x y
  | _, _ => Raise (TypeError "allclose(): argument must be Tensor")
  end.

(** [all(torch.allclose(a, b) for a, b in zip(expected, actual))]: stops
    at the first pair that is not close or that raises. *)
Fixpoint all_allclose (pairs : list (Value * Value)) : result bool :=
  match pairs with
  | [] => Ok true
  | (a, b) :: rest =>
      match torch_allclose_values a b with
      | Ok true => all_allclose rest
      | Ok false => Ok false
      | Raise e => Raise e
      end
  end.

Definition is_sequence (v : Value) : option (list Value) :=
  match v with
  | VTuple l => Some l
  | VList l => Some l
  | _ => None
  end.

Definition allclose (expected actual : Value) : result bool :=
  let expected := unwrap expected in
  let actual := unwrap actual in
  match expected, actual with
  | VTensor e, VTensor a => torch_allclose e a
  | _, _ =>
      match is_sequence expected, is_sequence actual with
      | Some es, Some acts =>
          if Nat.eqb (length es) (length acts)
          then all_allclose (zip es acts)
          else Ok false
      | _, _ => Raise (RuntimeError "Unexpected types")
      end
  end.

(** The body of the [for i in range(ncase)] loop, over the remaining
    indices and the indices that failed so far. *)
Fixpoint check_cases (mod_ : NNModule) (optimized_mod : CompiledModule)
  (indices : list nat) (failed_index : list nat) : M (list nat) :=
  match indices with
  | [] => ret failed_index
  | i :: rest =>
      let! rand_args := gen_rand_args mod_ in
      let! expected := lift (forward mod_ rand_args) in
      let! actual := lift (optimized_mod rand_args) in
      let! close := lift (allclose expected actual) in
      check_cases mod_ optimized_mod rest
        (if close : bool then failed_index else failed_index ++ [i])
  end.

Definition default_ncase : Z := 10.

(** [dis.dis] and the [print] calls only write to standard output and are
    left out; the call of [optimized_mod] on [args] inside the first
    [print] is kept.  The parameter [mod] of the source is [mod_] here. *)
Definition verify_reusing_compiled_graph (mod_ : NNModule)
  (exception_msg_pattern : option string) (ncase : Z) : M unit :=
  let! args := gen_rand_args mod_ in
  let! out := lift (forward mod_ args) in
  let! cfg := get_force_fallback in
  match extract_compiled_graph mod_ args cfg with
  | Raise (RuntimeError exception_message) =>
      match exception_msg_pattern with
      | None => raise (RuntimeError exception_message)
      | Some pat =>
          if negb (re_search pat exception_message)
          then raise (RuntimeError
                 ("Expection message does not match the required pattern: "
                  ++ exception_message))
          else ret tt
      end
  | Raise e => raise e
  | Ok optimized_mod =>
      match exception_msg_pattern with
      | Some pat =>
          raise (RuntimeError ("Expect an exception matching pattern " ++ pat))
      | None =>
          let! shown := lift (optimized_mod args) in
          let! failed_index := check_cases mod_ optimized_mod
                                 (seq 0 (Z.to_nat ncase)) [] in
          if Nat.ltb 0 (length failed_index)
          then raise (RuntimeError
                 ("Failed " ++ str_nat (length failed_index) ++ "/"
                  ++ str_Z ncase ++ " cases"))
          else ret tt
      end
  end.

Definition maketest (module_cls : unit -> NNModule)
  (exception_msg_pattern : option string) (ctxmgr : option ContextManager)
  : M unit :=
  let ctxmgr := match ctxmgr with Some c => c | None => nop_ctx_mgr end in
  ctxmgr unit (verify_reusing_compiled_graph (module_cls ())
                 exception_msg_pattern default_ncase).

(** *** Vocabulary of the properties *)

(** The comparison the loop makes on one sample. *)
Definition compare_sample (mod_ : NNModule) (optimized_mod : CompiledModule)
  (rand_args : list Tensor) : result bool :=
  match forward mod_ rand_args with
  | Raise e => Raise e
  | Ok expected =>
      match optimized_mod rand_args with
      | Raise e => Raise e
      | Ok actual => allclose expected actual
      end
  end.

(** The argument lists that [n] successive calls of [gen_rand_args] draw,
    starting in the world [w]. *)
Fixpoint samples (mod_ : NNModule) (n : nat) (w : World) : list (list Tensor) :=
  match n with
  | O => []
  | S n' =>
      match gen_rand_args mod_ w with
      | (Ok a, w') => a :: samples mod_ n' w'
      | (Raise _, _) => []
      end
  end.

(** The world after these [n] draws. *)
Fixpoint drawn (mod_ : NNModule) (n : nat) (w : World) : World :=
  match n with
  | O => w
  | S n' => drawn mod_ n' (snd (gen_rand_args mod_ w))
  end.




(** A tuple or a list of the given items. *)
Definition VSeq (tuple : bool) (items : list Value) : Value :=
  if tuple then VTuple items else VList items.

(** The results of [n] successive calls of [torch.randn] and the state of
    the generator after them. *)
Fixpoint draws (n : nat) (g : Rng) : list Tensor * Rng :=
  match n with
  | O => ([], g)
  | S n' =>
      let '(t, g1) := randn g in
      let '(ts, g2) := draws n' g1 in
      (t :: ts, g2)
  end.

(** The arguments that [gen_rand_args] draws in the world [w] and the
    world it leaves. *)
Definition drawn_args (mod_ : NNModule) (w : World) : list Tensor :=
  fst (draws (nparams mod_) (rng w)).

Definition world_after_draw (mod_ : NNModule) (w : World) : World :=
  {| force_fallback := force_fallback w;
     rng := snd (draws (nparams mod_) (rng w)) |}.

Definition mismatch_message (exception_message : string) : string :=
  "Expection message does not match the required pattern: " ++ exception_message.

Definition missing_exception_message (pat : string) : string :=
  "Expect an exception matching pattern " ++ pat.

End Torch.

Arguments Value : clear implicits.
Arguments World : clear implicits.
Arguments NNModule : clear implicits.

End Harness.

(** ** Regular expressions

    The part of Python's [re] that the harness's pattern
    ["fallback.*aten::sub"] uses: literal characters, [.] (any character
    but a newline) and a postfix [*]. *)

Module Regex.

Definition newline : ascii := "010"%char.

Inductive Atom : Type :=
| AChar (c : ascii)
| ADot.

Inductive Piece : Type :=
| One (a : Atom)
| Many (a : Atom).

Definition is_meta (c : ascii) : bool :=
  existsb (Ascii.eqb c) (list_ascii_of_string "\^$+?{}[]()|").

Definition atom_of (c : ascii) : Atom :=
  if Ascii.eqb c "." then ADot else AChar c.

(** [None] for a pattern outside the supported part. *)
Fixpoint compile (pat : string) : option (list Piece) :=
  match pat with
  | EmptyString => Some []
  | String c rest =>
      if is_meta c || Ascii.eqb c "*" then None
      else match rest with
           | String "*" rest' => cons (Many (atom_of c)) <$> compile rest'
           | _ => cons (One (atom_of c)) <$> compile rest
           end
  end.

Definition atom_matches (a : Atom) (c : ascii) : bool :=
  match a with
  | AChar x => Ascii.eqb x c
  | ADot => negb (Ascii.eqb c newline)
  end.

(** Does some prefix of [s] match the pieces? *)
Fixpoint match_here (ps : list Piece) (s : string) : bool :=
  match ps with
  | [] => true
  | One a :: ps' =>
      match s with
      | String c s' => atom_matches a c && match_here ps' s'
      | EmptyString => false
      end
  | Many a :: ps' =>
      (fix star (s : string) : bool :=
         match_here ps' s ||
         match s with
         | String c s' => atom_matches a c && star s'
         | EmptyString => false
         end) s
  end.

(** Does the pattern match at some position of [s]? *)
Fixpoint search_from (ps : list Piece) (s : string) : bool :=
  match_here ps s ||
  match s with
  | String _ s' => search_from ps s'
  | EmptyString => false
  end.

(** [re.search(pat, s) is not None]. *)
Definition re_search (pat s : string) : option bool :=
  ps ← compile pat; Some (search_from ps s).



End Regex.



(** ** Extraction and replay of a captured graph

    [torch._lazy.extract_compiled_graph], which the harness imports, is
    not among the sources.  This module holds the specification's
    CapturedGraph and LoweredGraph (section 3), BackendExtractor (section
    4.3) and CompiledGraphRunner (section 4.4). *)

Module Lazy.

(** Modelled from the spec: the error taxonomy of section 7 for the
    missing extractor and runner; [FatalError] stands for any other
    exception, which is propagated unchanged. *)
Inductive Error : Type :=
| FallbackError (msg : string)
| ArityMismatchError
| ResultShapeMismatchError
| FatalError (msg : string).

Inductive result (A : Type) : Type :=
| Ok (a : A)
| Err (e : Error).
Arguments Ok {A} a.
Arguments Err {A} e.

(** Modelled from the spec: the text of the missing extractor's
    FallbackError.  It contains the literal ["fallback"] and the qualified
    name of the operator and the specification fixes no more of it; the
    harness's pattern ["fallback.*aten::sub"] has the literal before the
    name, so the message is the literal, then the name, with arbitrary
    text around and between them. *)
Record MessageFormat : Type := {
  msg_before : string;
  msg_between : string;
  msg_after : string
}.

Definition fallback_message (fmt : MessageFormat) (op_name : string) : string :=
  msg_before fmt ++ "fallback" ++ msg_between fmt ++ op_name ++ msg_after fmt.

(** A backend handle is an index into the arena of a run. *)
Abbreviation Handle := nat (only parsing).

(** Modelled from the spec: the four states of the missing
    BackendExtractor. *)
Inductive Phase : Type := NotStarted | Walking | Completed | Failed.

Section Backend.

Context {Tensor Scalar : Type}.

(** *** Data model *)

(** Modelled from the spec: a reference of the missing CapturedGraph, to a
    declared input of the graph or to a node, by position. *)
Inductive Ref : Type :=
| RInput (i : nat)
| RNode (i : nat).

(** Modelled from the spec: an operand of a node of the missing
    CapturedGraph, a reference or a literal host-side scalar. *)
Inductive Operand : Type :=
| OTensor (r : Ref)
| OScalar (s : Scalar).

Record Node : Type := {
  op : string;
  inputs : list Operand
}.

(** Modelled from the spec: the missing CapturedGraph, nodes in capture
    order and the declared ordered outputs.  [returns_sequence] records
    whether the traced callable returned a tuple or list rather than a
    single value. *)
Record CapturedGraph : Type := {
  num_inputs : nat;
  nodes : list Node;
  outputs : list Ref;
  returns_sequence : bool
}.





(** Modelled from the spec: the inputs of a lowered node of the missing
    LoweredGraph, a tensor handle or scalar data. *)
Inductive BackendInput : Type :=
| HTensor (h : Handle)
| HScalar (s : Scalar).

Record LoweredNode : Type := {
  lop : string;
  largs : list BackendInput;
  lout : Handle
}.

(** Modelled from the spec: the missing LoweredGraph, one lowered node per
    captured node, the input handles in parameter order and one output
    handle per declared output. *)
Record LoweredGraph : Type := {
  input_handles : list Handle;
  body : list LoweredNode;
  output_handles : list Handle;
  sequence_result : bool
}.

(** *** Backend *)

Inductive BackendValue : Type :=
| BTensor (t : Tensor)
| BScalar (s : Scalar).

(** Modelled from the spec: the missing Backend, its capability query and
    the execution of a lowered operator. *)
Record Backend : Type := {
  is_supported : string -> bool;
  kernel : string -> list BackendValue -> option Tensor
}.

(** *** BackendExtractor *)

(** Modelled from the spec: the state of the missing BackendExtractor,
    with the handle recorded per node keyed by the node's position. *)
Record Extractor : Type := {
  phase : Phase;
  failure : option Error;
  produced : gmap nat Handle;
  lowered : list LoweredNode;
  visited : nat
}.

Definition start : Extractor :=
  {| phase := NotStarted; failure := None; produced := ∅;
     lowered := []; visited := 0 |}.

Definition fail (st : Extractor) (e : Error) : Extractor :=
  {| phase := Failed; failure := Some e; produced := produced st;
     lowered := lowered st; visited := visited st |}.

Definition lower_ref (G : CapturedGraph) (st : Extractor) (r : Ref) : option Handle :=
  match r with
  | RInput i => if Nat.ltb i (num_inputs G) then Some i else None
  | RNode j => produced st !! j
  end.

(** Modelled from the spec: step 3 of the missing extractor's visit; a
    scalar operand becomes scalar data, not a tensor. *)
Definition lower_operand (G : CapturedGraph) (st : Extractor) (o : Operand)
  : option BackendInput :=
  match o with
  | OTensor r => HTensor <$> lower_ref G st r
  | OScalar s => Some (HScalar s)
  end.

(** Modelled from the spec: step 1 of the missing extractor's visit; an
    operator in the forced-fallback set is unsupported whatever the
    backend says. *)
Definition unsupported (B : Backend) (forced : gset string) (name : string) : bool :=
  negb (is_supported B name) || bool_decide (name ∈ forced).

(** Modelled from the spec: the visit of one node by the missing
    extractor, steps 1 to 4. *)
Definition visit (B : Backend) (fmt : MessageFormat) (forced : gset string)
  (G : CapturedGraph) (st : Extractor) (n : Node) : Extractor :=
  match phase st with
  | Completed | Failed => st
  | NotStarted | Walking =>
      if unsupported B forced (op n)
      then fail st (FallbackError (fallback_message fmt (op n)))
      else match mapM (lower_operand G st) (inputs n) with
           | None => fail st (FatalError "dangling input reference")
           | Some args =>
               let h := num_inputs G + visited st in
               {| phase := Walking; failure := None;
                  produced := <[visited st := h]> (produced st);
                  lowered := lowered st ++ [{| lop := op n; largs := args; lout := h |}];
                  visited := S (visited st) |}
           end
  end.

(** Modelled from the spec: the missing extractor's walk over the nodes in
    capture order. *)
Definition walk (B : Backend) (fmt : MessageFormat) (forced : gset string)
  (G : CapturedGraph) : Extractor :=
  foldl (visit B fmt forced G) start (nodes G).

(** Modelled from the spec: the transition to [Completed] of the missing
    extractor once all nodes are visited without failure. *)
Definition complete (st : Extractor) : Extractor :=
  match phase st with
  | Failed => st
  | _ => {| phase := Completed; failure := failure st; produced := produced st;
            lowered := lowered st; visited := visited st |}
  end.

(** Modelled from the spec: the missing extraction; a failed walk returns
    no graph. *)
Definition extract (B : Backend) (fmt : MessageFormat) (forced : gset string)
  (G : CapturedGraph) : result LoweredGraph :=
  let st := complete (walk B fmt forced G) in
  match failure st with
  | Some e => Err e
  | None =>
      match mapM (lower_ref G st) (outputs G) with
      | None => Err (FatalError "dangling output reference")
      | Some hs =>
          Ok {| input_handles := seq 0 (num_inputs G);
                body := lowered st;
                output_handles := hs;
                sequence_result := returns_sequence G |}
      end
  end.


(** *** CompiledGraphRunner *)

(** Modelled from the spec: the result of a call of the missing runner,
    the arena of the run and, per output position, the handle of the
    value it holds.  Two positions hold the identical value when they
    hold the same handle. *)
Inductive Output : Type :=
| Single (h : Handle)
| Sequence (hs : list Handle).

Record RunResult : Type := {
  arena : gmap Handle Tensor;
  value : Output
}.



Definition fetch (a : gmap Handle Tensor) (x : BackendInput) : option BackendValue :=
  match x with
  | HTensor h => BTensor <$> a !! h
  | HScalar s => Some (BScalar s)
  end.

Definition execute (B : Backend) (a : gmap Handle Tensor) (n : LoweredNode)
  : option (gmap Handle Tensor) :=
  vals ← mapM (fetch a) (largs n);
  t ← kernel B (lop n) vals;
  Some (<[lout n := t]> a).

Fixpoint execute_all (B : Backend) (a : gmap Handle Tensor) (ns : list LoweredNode)
  : option (gmap Handle Tensor) :=
  match ns with
  | [] => Some a
  | n :: ns' => a' ← execute B a n; execute_all B a' ns'
  end.

(** Modelled from the spec: a call of the missing runner.  It binds the
    arguments to the input handles, executes the whole graph and rebuilds
    the outputs: the single value when the callable returned one, a
    sequence of the same length otherwise. *)
Definition call (B : Backend) (LG : LoweredGraph) (args : list Tensor)
  : result RunResult :=
  if negb (Nat.eqb (length args) (length (input_handles LG)))
  then Err ArityMismatchError
  else
    match execute_all B (list_to_map (zip (input_handles LG) args)) (body LG) with
    | None => Err (FatalError "backend execution failed")
    | Some a =>
        if negb (forallb (fun h => bool_decide (is_Some (a !! h))) (output_handles LG))
        then Err ResultShapeMismatchError
        else if sequence_result LG
        then Ok {| arena := a; value := Sequence (output_handles LG) |}
        else match output_handles LG with
             | [h] => Ok {| arena := a; value := Single h |}
             | _ => Err ResultShapeMismatchError
             end
    end.

End Backend.

Arguments Ref : clear implicits.
Arguments Operand : clear implicits.
Arguments Node : clear implicits.
Arguments CapturedGraph : clear implicits.
Arguments BackendInput : clear implicits.
Arguments LoweredNode : clear implicits.
Arguments LoweredGraph : clear implicits.
Arguments BackendValue : clear implicits.
Arguments Backend : clear implicits.
Arguments Extractor : clear implicits.
Arguments RunResult : clear implicits.

End Lazy.

(** ** The test modules

    The modules of the test file, with an integer standing for a tensor
    (the tensor library is outside the sources), each with the graph its
    [forward] traces to and the operators of the lazy backend it uses. *)

Module Scenario.

Import Harness.

Definition arity_error : result (Value Z) :=
  Raise (TypeError "forward() called with a wrong number of arguments").

Definition ModuleConstScale (_ : unit) : NNModule Z :=
  {| nparams := 1;
     forward := fun args =>
       match args with [a] => Ok (VTensor (a * 2)%Z) | _ => arity_error end |}.

Definition ModuleSub (_ : unit) : NNModule Z :=
  {| nparams := 2;
     forward := fun args =>
       match args with [a; b] => Ok (VTensor (a - b)%Z) | _ => arity_error end |}.

Definition ModuleAddcmul (_ : unit) : NNModule Z :=
  {| nparams := 3;
     forward := fun args =>
       match args with
       | [a; b; c] => Ok (VTensor (a + 5 * (b * c))%Z)
       | _ => arity_error
       end |}.

Definition ModuleReturnMulti (_ : unit) : NNModule Z :=
  {| nparams := 2;
     forward := fun args =>
       match args with
       | [a; b] => Ok (VTuple [VTensor (b + 1)%Z; VTensor (a - 1)%Z])
       | _ => arity_error
       end |}.

Definition ModuleReturnDupTensor (_ : unit) : NNModule Z :=
  {| nparams := 2;
     forward := fun args =>
       match args with
       | [a; b] =>
           let c := (a + b)%Z in
           Ok (VTuple [VTensor (a - b)%Z; VTensor c; VTensor (a + 1)%Z; VTensor c])
       | _ => arity_error
       end |}.

Import Lazy.

Definition node (name : string) (args : list (Operand Z)) : Node Z :=
  {| op := name; inputs := args |}.

Definition input (i : nat) : Operand Z := OTensor (RInput i).
Definition result_of (i : nat) : Operand Z := OTensor (RNode i).

Definition graph_ModuleConstScale : CapturedGraph Z :=
  {| num_inputs := 1;
     nodes := [node "aten::mul" [input 0; OScalar 2%Z]];
     outputs := [RNode 0];
     returns_sequence := false |}.

Definition graph_ModuleSub : CapturedGraph Z :=
  {| num_inputs := 2;
     nodes := [node "aten::sub" [input 0; input 1]];
     outputs := [RNode 0];
     returns_sequence := false |}.

Definition graph_ModuleAddcmul : CapturedGraph Z :=
  {| num_inputs := 3;
     nodes := [node "aten::addcmul" [input 0; input 1; input 2; OScalar 5%Z]];
     outputs := [RNode 0];
     returns_sequence := false |}.

Definition graph_ModuleReturnMulti : CapturedGraph Z :=
  {| num_inputs := 2;
     nodes := [node "aten::add" [input 1; OScalar 1%Z];
               node "aten::sub" [input 0; OScalar 1%Z]];
     outputs := [RNode 0; RNode 1];
     returns_sequence := true |}.

(** [c = a + b] is node 0 and is returned at positions 1 and 3. *)
Definition graph_ModuleReturnDupTensor : CapturedGraph Z :=
  {| num_inputs := 2;
     nodes := [node "aten::add" [input 0; input 1];
               node "aten::sub" [input 0; input 1];
               node "aten::add" [input 0; OScalar 1%Z]];
     outputs := [RNode 1; RNode 0; RNode 2; RNode 0];
     returns_sequence := true |}.

Definition number (v : BackendValue Z Z) : Z :=
  match v with BTensor t => t | BScalar s => s end.

Definition ts_kernel (name : string) (vals : list (BackendValue Z Z)) : option Z :=
  match number <$> vals with
  | [x; y] =>
      if String.eqb name "aten::add" then Some (x + y)%Z
      else if String.eqb name "aten::sub" then Some (x - y)%Z
      else if String.eqb name "aten::mul" then Some (x * y)%Z
      else None
  | [x; y; z; v] =>
      if String.eqb name "aten::addcmul" then Some (x + v * (y * z))%Z else None
  | _ => None
  end.

Definition ts_backend : Backend Z Z :=
  {| is_supported := fun name =>
       existsb (String.eqb name)
         ["aten::add"; "aten::sub"; "aten::mul"; "aten::addcmul"];
     kernel := ts_kernel |}.


Definition plain_format : MessageFormat :=
  {| msg_before := "extraction stopped by a "; msg_between := ": ";
     msg_after := "" |}.

(** The value a caller of the runner sees. *)
Definition to_value (r : RunResult Z) : Harness.result (Value Z) :=
  let read h := VTensor <$> arena r !! h in
  match value r with
  | Single h =>
      match read h with
      | Some v => Harness.Ok v
      | None => Raise (RuntimeError "missing output")
      end
  | Sequence hs =>
      match mapM read hs with
      | Some vs => Harness.Ok (VTuple vs)
      | None => Raise (RuntimeError "missing output")
      end
  end.

Definition describe (e : Error) : string :=
  match e with
  | FallbackError msg => msg
  | ArityMismatchError => "arity mismatch"
  | ResultShapeMismatchError => "result shape mismatch"
  | FatalError msg => msg
  end.

(** [extract_compiled_graph] on a module that traces to [G]; every error
    of the extractor reaches the harness as a [RuntimeError]. *)
Definition extract_compiled_graph (G : CapturedGraph Z) (_ : NNModule Z)
  (_ : list Z) (forced : gset string) : Harness.result (CompiledModule (Tensor := Z)) :=
  match extract ts_backend plain_format forced G with
  | Err e => Raise (RuntimeError (describe e))
  | Ok LG =>
      Harness.Ok (fun args =>
        match call ts_backend LG args with
        | Err e => Raise (RuntimeError (describe e))
        | Ok r => to_value r
        end)
  end.

(** A counter as random generator, equality as [torch.allclose] and the
    regular expressions above as [re.search]. *)
Definition counter_randn (g : nat) : Z * nat := (Z.of_nat g, S g).

Definition exact_allclose (a b : Z) : Harness.result bool := Harness.Ok (a =? b)%Z.

Definition search (pat s : string) : bool := default false (Regex.re_search pat s).

Definition run_test (G : CapturedGraph Z) (module_cls : unit -> NNModule Z)
  (exception_msg_pattern : option string)
  (ctxmgr : option (ContextManager (Rng := nat) (Cfg := gset string)))
  : M (Rng := nat) (Cfg := gset string) unit :=
  maketest counter_randn exact_allclose search (extract_compiled_graph G)
    module_cls exception_msg_pattern ctxmgr.

Definition test_sub := run_test graph_ModuleSub ModuleSub None None.

Definition test_ltc_fallback :=
  run_test graph_ModuleSub ModuleSub (Some "fallback.*aten::sub")
    (Some (force_fallback_ctx_mgr {["aten::sub"]})).

Definition test_const_scale := run_test graph_ModuleConstScale ModuleConstScale None None.
Definition test_addcmul := run_test graph_ModuleAddcmul ModuleAddcmul None None.
Definition test_return_multi := run_test graph_ModuleReturnMulti ModuleReturnMulti None None.
Definition test_return_dup_tensor :=
  run_test graph_ModuleReturnDupTensor ModuleReturnDupTensor None None.

Definition initial_world : World nat (gset string) :=
  {| force_fallback := ∅; rng := 0 |}.






(** A compiled module that is wrong on every input and breaks down when
    its first argument is 6. *)
Definition breaking_forward : CompiledModule (Tensor := Z) :=
  fun args =>
    match args with
    | [a; b] =>
        if (a =? 6)%Z then Raise (RuntimeError "backend failure")
        else Harness.Ok (VTensor (a - b + 1)%Z)
    | _ => arity_error
    end.

Definition breaking (_ : NNModule Z) (_ : list Z) (_ : gset string)
  : Harness.result (CompiledModule (Tensor := Z)) :=
  Harness.Ok breaking_forward.

(** The compiled module that agrees with [ModuleSub]. *)
Definition exact_forward : CompiledModule (Tensor := Z) :=
  fun args =>
    match args with
    | [a; b] => Harness.Ok (VTensor (a - b)%Z)
    | _ => arity_error
    end.

Definition exact (_ : NNModule Z) (_ : list Z) (_ : gset string)
  : Harness.result (CompiledModule (Tensor := Z)) :=
  Harness.Ok exact_forward.

(** Extractions that fail: with a [RuntimeError] when [aten::sub] is
    forced, and with a [TypeError] always. *)
Definition fallback_when_forced (_ : NNModule Z) (_ : list Z) (forced : gset string)
  : Harness.result (CompiledModule (Tensor := Z)) :=
  if bool_decide ("aten::sub" ∈ forced)
  then Raise (RuntimeError "fallback: aten::sub")
  else Harness.Ok exact_forward.

Definition ill_typed (_ : NNModule Z) (_ : list Z) (_ : gset string)
  : Harness.result (CompiledModule (Tensor := Z)) :=
  Raise (TypeError "fallback: aten::sub").

(** A module whose [forward] raises. *)
Definition ModuleBroken (_ : unit) : NNModule Z :=
  {| nparams := 2;
     forward := fun _ => Raise (RuntimeError "forward failed") |}.

Definition forced_sub : gset string := {["aten::sub"]}.

Definition forced_world : World nat (gset string) :=
  {| force_fallback := forced_sub; rng := 0 |}.

End Scenario.

(** * Properties *)

(** ** The native table *)

Section NativeTable.

Import Native.
Local Open Scope list_scope.

Lemma list_display_starred {A : Type} (ls : list (list A)) :
  list_display (Starred <$> ls) = mjoin ls.
Proof.
  induction ls as [|l ls IH]; [reflexivity|].
  change (list_display (Starred <$> l :: ls))
    with (l ++ list_display (Starred <$> ls)).
  now rewrite IH.
Qed.

Lemma occurrences_app (p : Pattern) (xs ys : list BackendPatternConfig) :
  occurrences p (xs ++ ys) = occurrences p xs + occurrences p ys.
Proof. unfold occurrences. now rewrite filter_app, length_app. Qed.

Lemma occurrences_elem (c : BackendPatternConfig) (cs : list BackendPatternConfig) :
  c ∈ cs -> 1 <= occurrences (pattern c) cs.
Proof.
  intros Hin. unfold occurrences.
  assert (Hf : c ∈ filter (fun c' => pattern c' = pattern c) cs)
    by (apply list_elem_of_filter; split; [reflexivity | exact Hin]).
  destruct (filter _ cs); [inversion Hf | simpl; lia].
Qed.

Lemma resolve_returns (gens : list (unit -> list BackendPatternConfig)) :
  resolve gens = Returns (mjoin ((fun g => g ()) <$> gens)).
Proof.
  unfold resolve. f_equal.
  rewrite <- list_display_starred, <- list_fmap_compose. reflexivity.
Qed.

(** The table of [get_native_backend_config_dict] is the resolution of the
    native generators. *)
Lemma native_table_resolved :
  resolve native_generators = Returns (configs (get_native_backend_config_dict ())).
Proof. reflexivity. Qed.

Lemma native_patterns_NoDup :
  NoDup (pattern <$> configs (get_native_backend_config_dict ())).
Proof. apply (bool_decide_unpack _). vm_compute. exact I. Qed.

(** C1, as the code has it.  Resolution appends the entries of all
    generators in order, checks nothing and raises nothing: when two
    generators both register a config for the same pattern, the table
    that comes back holds both entries. *)
Theorem resolve_keeps_both_entries
  (g1 g2 : unit -> list BackendPatternConfig) (c1 c2 : BackendPatternConfig) :
  c1 ∈ g1 () -> c2 ∈ g2 () -> pattern c1 = pattern c2 ->
  resolve [g1; g2] = Returns (g1 () ++ g2 ()) /\
  c1 ∈ g1 () ++ g2 () /\ c2 ∈ g1 () ++ g2 () /\
  2 <= occurrences (pattern c1) (g1 () ++ g2 ()) /\
  forall p : Pattern, resolve [g1; g2] <> Raises (DuplicatePatternError p).
Proof.
  intros H1 H2 Hp.
  assert (Hr : resolve [g1; g2] = Returns (g1 () ++ g2 ())).
  { rewrite resolve_returns. simpl. now rewrite app_nil_r. }
  split; [exact Hr|].
  split; [apply elem_of_app; now left|].
  split; [apply elem_of_app; now right|].
  split.
  - rewrite occurrences_app.
    pose proof (occurrences_elem c1 (g1 ()) H1) as Ha.
    pose proof (occurrences_elem c2 (g2 ()) H2) as Hb.
    rewrite <- Hp in Hb. lia.
  - intros p. rewrite Hr. discriminate.
Qed.

Lemma resolve_keeps_both_entries_witness :
  resolve [(fun _ => [_CAT_CONFIG]); (fun _ => [_CAT_CONFIG])]
    = Returns ([_CAT_CONFIG] ++ [_CAT_CONFIG]) /\
  2 <= occurrences (pattern _CAT_CONFIG) ([_CAT_CONFIG] ++ [_CAT_CONFIG]).
Proof.
  pose proof (resolve_keeps_both_entries
                (fun _ => [_CAT_CONFIG]) (fun _ => [_CAT_CONFIG])
                _CAT_CONFIG _CAT_CONFIG
                (list_elem_of_here _ _) (list_elem_of_here _ _) eq_refl) as H.
  split; [apply H | apply H].
Defined.

(** C1, as the specification states it, fails: two generators that both
    register a config for [torch.cat] resolve to a table with both
    entries, and no [DuplicatePatternError] is raised. *)
Lemma resolve_duplicate_not_rejected :
  let g1 := fun _ : unit => [_CAT_CONFIG] in
  let g2 := fun _ : unit => [_get_share_qprams_op_backend_config (torch "cat")] in
  pattern <$> g1 () = [PSingle (torch "cat")] /\
  pattern <$> g2 () = [PSingle (torch "cat")] /\
  resolve [g1; g2]
    = Returns [_CAT_CONFIG; _get_share_qprams_op_backend_config (torch "cat")] /\
  ~ (exists p : Pattern, resolve [g1; g2] = Raises (DuplicatePatternError p)).
Proof.
  repeat split.
  intros [p Hp]. discriminate Hp.
Qed.

(** C2.  In the table that [get_native_backend_config_dict] returns, two
    entries at distinct positions of the ["configs"] list never carry the
    same pattern. *)
Theorem native_patterns_pairwise_distinct
  (i j : nat) (ci cj : BackendPatternConfig) :
  i <> j ->
  configs (get_native_backend_config_dict ()) !! i = Some ci ->
  configs (get_native_backend_config_dict ()) !! j = Some cj ->
  pattern ci <> pattern cj.
Proof.
  intros Hij Hi Hj Heq. apply Hij.
  apply (NoDup_lookup _ i j (pattern ci) native_patterns_NoDup).
  - rewrite list_lookup_fmap, Hi. reflexivity.
  - rewrite list_lookup_fmap, Hj. simpl. now rewrite Heq.
Qed.

Lemma native_patterns_pairwise_distinct_witness :
  PSingle (nn "ConvTranspose1d") <> PSingle (nn "ConvTranspose2d").
Proof.
  exact (native_patterns_pairwise_distinct 0 1
           (_get_default_op_backend_config (nn "ConvTranspose1d")
              [default_op_quint8_dtype_config])
           (_get_default_op_backend_config (nn "ConvTranspose2d")
              [default_op_quint8_dtype_config])
           (O_S 0) eq_refl eq_refl).
Defined.

Lemma binary_mapping_lookup (n : nat) :
  ({[ 0 := OUTPUT_USE_DIFFERENT_OBSERVER_AS_INPUT;
      1 := OUTPUT_SHARE_OBSERVER_WITH_INPUT;
      2 := OUTPUT_USE_DIFFERENT_OBSERVER_AS_INPUT ]} : gmap nat ObservationType) !! n
  = observation_for n.
Proof.
  destruct n as [|[|[|n]]]; try reflexivity.
  rewrite !lookup_insert_ne by lia. apply lookup_singleton_ne. lia.
Qed.

Lemma observation_for_share (n : nat) :
  observation_for n = Some OUTPUT_SHARE_OBSERVER_WITH_INPUT <-> n = 1.
Proof.
  destruct n as [|[|[|n]]]; simpl; split; intros H; congruence || lia.
Qed.

(** C7.  The binary-op generator yields the sixteen entries for
    [operator.add], [torch.add], [operator.mul] and [torch.mul], alone and
    behind each relu variant, and these are the entries of the native
    table with such a pattern.  Every one of them has no fixed observation
    type and carries a mapping from the number of tensor arguments that
    gives the sharing strategy exactly at one tensor argument and the
    different-observer strategy at zero and at two. *)
Theorem binary_op_configs_mapping :
  pattern <$> _get_binary_op_configs () = binary_op_patterns /\
  filter (fun c => pattern c ∈ binary_op_patterns)
    (configs (get_native_backend_config_dict ())) = _get_binary_op_configs () /\
  Forall (fun c =>
    observation_type c = None /\
    exists m : gmap nat ObservationType,
      num_tensor_args_to_observation_type c = Some m /\
      m !! 0 = Some OUTPUT_USE_DIFFERENT_OBSERVER_AS_INPUT /\
      m !! 1 = Some OUTPUT_SHARE_OBSERVER_WITH_INPUT /\
      m !! 2 = Some OUTPUT_USE_DIFFERENT_OBSERVER_AS_INPUT /\
      forall n : nat, m !! n = Some OUTPUT_SHARE_OBSERVER_WITH_INPUT <-> n = 1)
    (_get_binary_op_configs ()).
Proof.
  split; [reflexivity|]. split; [vm_compute; reflexivity|].
  apply Forall_forall. intros c Hc.
  assert (Hshape : exists p dc, c = binary_entry p
            {[ 0 := OUTPUT_USE_DIFFERENT_OBSERVER_AS_INPUT;
               1 := OUTPUT_SHARE_OBSERVER_WITH_INPUT;
               2 := OUTPUT_USE_DIFFERENT_OBSERVER_AS_INPUT ]} dc).
  { unfold _get_binary_op_configs in Hc.
    apply list_elem_of_bind in Hc as (bop & Hc & _).
    repeat (apply elem_of_cons in Hc as [-> | Hc]; [do 2 eexists; reflexivity|]).
    inversion Hc. }
  destruct Hshape as (p & dc & ->). simpl.
  split; [reflexivity|]. eexists. split; [reflexivity|].
  rewrite !binary_mapping_lookup. repeat split; try reflexivity.
  - rewrite binary_mapping_lookup. apply observation_for_share.
  - intros ->. reflexivity.
Qed.

(** C8.  The fixed-qparams generator yields twelve entries, one per
    module, function and method-name variant of hardsigmoid, sigmoid and
    tanh.  Each carries an overriding output observer and an overriding
    fake-quantizer factory built from that observer; the observer is the
    affine one for the hardsigmoid and sigmoid variants and the symmetric
    one for the tanh variants. *)
Theorem fixed_qparams_configs_overrides :
  length (_get_fixed_qparams_op_configs ()) = 12 /\
  pattern <$> _get_fixed_qparams_op_configs ()
    = PSingle <$> (hardsigmoid_variants ++ sigmoid_variants ++ tanh_variants) /\
  Forall (fun c =>
    is_Some (_overwrite_output_observer c) /\
    _overwrite_output_fake_quantizer c
      = FixedQParamsFakeQuantize_with_args <$> _overwrite_output_observer c /\
    (pattern c ∈ PSingle <$> (hardsigmoid_variants ++ sigmoid_variants) ->
     _overwrite_output_observer c = Some default_affine_fixed_qparams_observer) /\
    (pattern c ∈ PSingle <$> tanh_variants ->
     _overwrite_output_observer c = Some default_symmetric_fixed_qparams_observer))
    (_get_fixed_qparams_op_configs ()).
Proof.
  split; [reflexivity|]. split; [reflexivity|].
  apply (bool_decide_unpack _). vm_compute. exact I.
Qed.


End NativeTable.

(** ** The harness *)

Section HarnessProperties.

Import Harness.
Local Open Scope list_scope.

Context {Tensor Rng Cfg : Type}.
Variable randn : Rng -> Tensor * Rng.
Variable torch_allclose : Tensor -> Tensor -> result bool.
Variable re_search : string -> string -> bool.
Variable extract_compiled_graph :
  NNModule Tensor -> list Tensor -> Cfg -> result (CompiledModule (Tensor := Tensor)).

(** C5.  Whatever the setting was before entry, whatever operator set is
    scoped and whatever the block does, the force-fallback setting after
    the [with] statement is the one read before entry.  The block runs
    with the scoped setting, and its outcome, a returned value or a raised
    exception, is the outcome of the statement. *)
Theorem force_fallback_ctx_mgr_restores (A : Type) (fallback_op : Cfg)
  (block : M A) (w : World Rng Cfg) :
  let inside := {| force_fallback := fallback_op; rng := rng w |} in
  let after := force_fallback_ctx_mgr fallback_op A block w in
  force_fallback (snd after) = force_fallback w /\
  rng (snd after) = rng (snd (block inside)) /\
  match fst (block inside) with
  | Ok a => fst after = Ok a
  | Raise e => fst after = Raise e
  end.
Proof.
  intros inside after. subst after inside.
  unfold force_fallback_ctx_mgr, bind, get_force_fallback, set_force_fallback,
    try_finally. simpl.
  destruct (block _) as [[a|e] w1]; simpl; auto.
Qed.

(** C10.  A one-element list or tuple on either side is replaced by its
    element before the comparison: with a tensor inside and a tensor on
    the other side, the outcome of [allclose] is the outcome of
    [torch.allclose] on the two tensors. *)
Theorem allclose_unwraps_singleton (t t' : Tensor) :
  allclose torch_allclose (VList [VTensor t']) (VTensor t) = torch_allclose t' t /\
  allclose torch_allclose (VTuple [VTensor t']) (VTensor t) = torch_allclose t' t /\
  allclose torch_allclose (VTensor t) (VList [VTensor t']) = torch_allclose t t' /\
  allclose torch_allclose (VTensor t) (VTuple [VTensor t']) = torch_allclose t t' /\
  allclose torch_allclose (VList [VTensor t']) (VTuple [VTensor t]) = torch_allclose t' t /\
  allclose torch_allclose (VTensor t') (VTensor t) = torch_allclose t' t.
Proof. repeat split. Qed.







End HarnessProperties.


(** ** Strings and regular expressions *)

Section Strings.






Import Regex.





End Strings.

(** ** Extraction and replay *)

Section LazyProperties.

Import Lazy.
Local Open Scope list_scope.

Context {Tensor Scalar : Type}.
Variable B : Backend Tensor Scalar.
Variable fmt : MessageFormat.
Variable forced : gset string.
Variable G : CapturedGraph Scalar.












End LazyProperties.

(** ** The test modules on the modelled backend *)

Section Scenarios.

Import Lazy Scenario.




(** The six tests of [OptimizeTest] pass on the modelled backend, and the
    fallback test leaves the force-fallback setting as it found it. *)
Example optimize_tests_pass :
  Harness.force_fallback (snd (test_ltc_fallback initial_world)) = ∅ /\
  fst <$> [ test_sub initial_world; test_ltc_fallback initial_world;
            test_const_scale initial_world; test_addcmul initial_world;
            test_return_multi initial_world; test_return_dup_tensor initial_world ]
  = replicate 6 (Harness.Ok tt).
Proof. split; vm_compute; reflexivity. Qed.

End Scenarios.

(** * Further properties *)

(** ** Consistency of the native table *)

Section NativeConsistency.

Import Native.
Local Open Scope list_scope.

Lemma qat_entries_checked :
  Forall (fun c =>
    is_Some (qat_module c) ->
    Exists (fun c' =>
      Some (pattern c') = PSingle <$> qat_module c /\
      root_module c' = root_module c /\
      reference_quantized_module_for_root c'
        = reference_quantized_module_for_root c /\
      qat_module c' = None) native_configs) native_configs.
Proof. apply (bool_decide_unpack _). vm_compute. exact I. Qed.

Lemma fuser_entries_checked :
  Forall (fun c =>
    is_Some (fuser_method c) ->
    Exists (fun c' =>
      Some (pattern c') = (fun f => PSingle (fused_module f)) <$> fuser_method c /\
      Exists (fun r => Some (pattern c) = (fun m => PTuple [r; m]) <$> root_module c')
        [nn "ReLU"; F "relu"]) native_configs) native_configs.
Proof. apply (bool_decide_unpack _). vm_compute. exact I. Qed.

Lemma chain_entries_checked :
  Forall (fun c =>
    is_single (pattern c) = true \/
    Exists (fun r =>
      Exists (fun c' =>
        is_single (pattern c') = true /\
        pattern c = PTuple (r :: pattern_ops (pattern c'))) native_configs)
      relu_variants) native_configs.
Proof. apply (bool_decide_unpack _). vm_compute. exact I. Qed.

(** X1.  Every entry of the native table has exactly one of the keys
    ["observation_type"] and ["num_tensor_args_to_observation_type"], and
    the second one exactly when its pattern is a binary-op pattern. *)
Theorem native_strategy_exclusive :
  Forall (fun c =>
    (observation_type c = None <-> is_Some (num_tensor_args_to_observation_type c)) /\
    (is_Some (num_tensor_args_to_observation_type c)
     <-> pattern c ∈ binary_op_patterns)) native_configs.
Proof. apply (bool_decide_unpack _). vm_compute. exact I. Qed.

(** X2.  In the native table the keys ["root_module"] and
    ["reference_quantized_module_for_root"] come together, a
    ["qat_module"] only comes with them, and the reference module is the
    [nnqr] class with the same name as the root, which is [Linear] or one
    of the three [Conv] classes. *)
Theorem native_root_reference_paired :
  Forall (fun c =>
    (is_Some (root_module c) <-> is_Some (reference_quantized_module_for_root c)) /\
    (is_Some (qat_module c) -> is_Some (root_module c)) /\
    (is_Some (root_module c) ->
     Exists (fun s => root_module c = Some (nn s) /\
                      reference_quantized_module_for_root c = Some (nnqr s))
       root_names)) native_configs.
Proof. apply (bool_decide_unpack _). vm_compute. exact I. Qed.

(** X3.  The QAT module an entry of the native table names is itself the
    pattern of an entry of the table, which has the same root module and
    reference module and names no QAT module of its own. *)
Theorem native_qat_module_configured (c : BackendPatternConfig) (q : OpId) :
  c ∈ native_configs ->
  qat_module c = Some q ->
  exists c' : BackendPatternConfig,
    c' ∈ native_configs /\ pattern c' = PSingle q /\
    root_module c' = root_module c /\
    reference_quantized_module_for_root c' = reference_quantized_module_for_root c /\
    qat_module c' = None.
Proof.
  intros Hc Hq.
  pose proof (proj1 (Forall_forall _ _) qat_entries_checked c Hc) as H.
  cbv beta in H. rewrite Hq in H. destruct (proj1 (Exists_exists _ _) (H (mk_is_Some _ _ eq_refl)))
    as (c' & Hc' & Hp & Hr & Href & Hn).
  exists c'. simpl in Hp. repeat split; try assumption. congruence.
Qed.

Lemma native_qat_module_configured_witness :
  exists c' : BackendPatternConfig,
    c' ∈ native_configs /\ pattern c' = PSingle (nniqat "ConvReLU2d") /\
    root_module c' = Some (nn "Conv2d") /\
    reference_quantized_module_for_root c' = Some (nnqr "Conv2d") /\
    qat_module c' = None.
Proof.
  assert (Hin : native_configs !! 41 = Some
            (with_qat (nniqat "ConvReLU2d")
               (with_root (nn "Conv2d") (nnqr "Conv2d")
                  (entry (PSingle (nni "ConvReLU2d"))
                     OUTPUT_USE_DIFFERENT_OBSERVER_AS_INPUT
                     (DTList [weighted_op_int8_dtype_config])))))
    by (vm_compute; reflexivity).
  exact (native_qat_module_configured _ (nniqat "ConvReLU2d")
           (proj2 (list_elem_of_lookup _ _) (ex_intro _ 41 Hin)) eq_refl).
Defined.

(** X4.  An entry of the native table with a fuser method has a pattern
    [(relu, m)] with the module or functional relu in front, and the fused
    module its fuser method builds is the pattern of an entry of the table
    whose root module is [m]. *)
Theorem native_fused_module_configured (c : BackendPatternConfig) (fused : OpId) :
  c ∈ native_configs ->
  fuser_method c = Some (reverse_sequential_wrapper2 fused) ->
  exists (r m : OpId) (c' : BackendPatternConfig),
    r ∈ [nn "ReLU"; F "relu"] /\ pattern c = PTuple [r; m] /\
    c' ∈ native_configs /\ pattern c' = PSingle fused /\ root_module c' = Some m.
Proof.
  intros Hc Hf.
  pose proof (proj1 (Forall_forall _ _) fuser_entries_checked c Hc) as H.
  cbv beta in H. rewrite Hf in H. destruct (proj1 (Exists_exists _ _) (H (mk_is_Some _ _ eq_refl)))
    as (c' & Hc' & Hp & Hex).
  apply Exists_exists in Hex as (r & Hr & Hpat).
  destruct (root_module c') as [m|] eqn:Hm; [|discriminate].
  exists r, m, c'. simpl in Hp, Hpat.
  repeat split; try assumption; congruence.
Qed.

Lemma native_fused_module_configured_witness :
  exists (r m : OpId) (c' : BackendPatternConfig),
    r ∈ [nn "ReLU"; F "relu"] /\
    PTuple [nn "ReLU"; nn "Linear"] = PTuple [r; m] /\
    c' ∈ native_configs /\ pattern c' = PSingle (nni "LinearReLU") /\
    root_module c' = Some m.
Proof.
  assert (Hin : native_configs !! 21 = Some
            (with_fuser (reverse_sequential_wrapper2 (nni "LinearReLU"))
               (entry (PTuple [nn "ReLU"; nn "Linear"])
                  OUTPUT_USE_DIFFERENT_OBSERVER_AS_INPUT
                  (DTList [weighted_op_int8_dtype_config]))))
    by (vm_compute; reflexivity).
  exact (native_fused_module_configured _ (nni "LinearReLU")
           (proj2 (list_elem_of_lookup _ _) (ex_intro _ 21 Hin)) eq_refl).
Defined.

(** X5.  A tuple pattern of the native table has two elements: one of the
    three relu identifiers, then an operator that the table also
    configures on its own. *)
Theorem native_chain_tail_configured (c : BackendPatternConfig) (ops : list OpId) :
  c ∈ native_configs ->
  pattern c = PTuple ops ->
  exists (r t : OpId) (c' : BackendPatternConfig),
    ops = [r; t] /\ r ∈ relu_variants /\
    c' ∈ native_configs /\ pattern c' = PSingle t.
Proof.
  intros Hc Hp.
  pose proof (proj1 (Forall_forall _ _) chain_entries_checked c Hc) as H.
  cbv beta in H. rewrite Hp in H. destruct H as [H|H]; [discriminate|].
  apply Exists_exists in H as (r & Hr & H).
  apply Exists_exists in H as (c' & Hc' & Hs & Heq).
  destruct (pattern c') as [t|] eqn:Hpc; [|discriminate].
  exists r, t, c'. simpl in Heq. repeat split; try assumption. congruence.
Qed.

Lemma native_chain_tail_configured_witness :
  exists (r t : OpId) (c' : BackendPatternConfig),
    [torch "relu"; torch "mul"] = [r; t] /\ r ∈ relu_variants /\
    c' ∈ native_configs /\ pattern c' = PSingle t.
Proof.
  assert (Hin : native_configs !! 74 = Some
            (binary_entry (PTuple [torch "relu"; torch "mul"])
               {[ 0 := OUTPUT_USE_DIFFERENT_OBSERVER_AS_INPUT;
                  1 := OUTPUT_SHARE_OBSERVER_WITH_INPUT;
                  2 := OUTPUT_USE_DIFFERENT_OBSERVER_AS_INPUT ]}
               (DTList [weighted_op_int8_dtype_config])))
    by (vm_compute; reflexivity).
  exact (native_chain_tail_configured _ [torch "relu"; torch "mul"]
           (proj2 (list_elem_of_lookup _ _) (ex_intro _ 74 Hin)) eq_refl).
Defined.

(** X6.  The value under ["dtype_configs"] is a one-element list holding
    the weighted int8 or the quint8 config, except in the four batchnorm
    entries, which store the quint8 config itself and not a list; the
    fp16 config is used nowhere. *)
Theorem native_dtype_configs_shape :
  Forall (fun c =>
    dtype_configs c ∈ [ DTList [weighted_op_int8_dtype_config];
                        DTList [default_op_quint8_dtype_config];
                        DTBare default_op_quint8_dtype_config ] /\
    (dtype_configs c = DTBare default_op_quint8_dtype_config
     <-> pattern c ∈ pattern <$> _get_bn_configs ())) native_configs /\
  length (_get_bn_configs ()) = 4.
Proof.
  split; [|reflexivity]. apply (bool_decide_unpack _). vm_compute. exact I.
Qed.

(** X7.  In the native table the two override keys come together, and
    only the entries for the variants of hardsigmoid, sigmoid and tanh
    have them. *)
Theorem native_overrides_only_fixed_qparams :
  Forall (fun c =>
    (is_Some (_overwrite_output_observer c)
     <-> is_Some (_overwrite_output_fake_quantizer c)) /\
    (is_Some (_overwrite_output_observer c)
     <-> pattern c ∈ PSingle <$>
           (hardsigmoid_variants ++ sigmoid_variants ++ tanh_variants)))
    native_configs.
Proof. apply (bool_decide_unpack _). vm_compute. exact I. Qed.

(** X8.  The entries of the native table whose output shares the observer
    of the input are the one for [torch.cat] and those of the
    share-qparams list; they have the quint8 dtype config and neither
    root module, QAT module nor fuser method. *)
Theorem native_share_observer_entries :
  Forall (fun c =>
    (observation_type c = Some OUTPUT_SHARE_OBSERVER_WITH_INPUT
     <-> pattern c ∈ PSingle <$> (torch "cat" :: share_qparams_ops)) /\
    (observation_type c = Some OUTPUT_SHARE_OBSERVER_WITH_INPUT ->
     dtype_configs c = DTList [default_op_quint8_dtype_config] /\
     root_module c = None /\ qat_module c = None /\ fuser_method c = None))
    native_configs.
Proof. apply (bool_decide_unpack _). vm_compute. exact I. Qed.

End NativeConsistency.

(** ** Comparison, sampling and error paths of the harness *)

Section HarnessBehaviour.

Import Harness.
Local Open Scope list_scope.

Context {Tensor Rng Cfg : Type}.
Variable randn : Rng -> Tensor * Rng.
Variable torch_allclose : Tensor -> Tensor -> result bool.
Variable re_search : string -> string -> bool.
Variable extract_compiled_graph :
  NNModule Tensor -> list Tensor -> Cfg -> result (CompiledModule (Tensor := Tensor)).

Lemma draws_length (n : nat) (g : Rng) : length (fst (draws randn n g)) = n.
Proof.
  revert g. induction n as [|n IH]; intros g; simpl; [reflexivity|].
  destruct (randn g) as [t g1]. specialize (IH g1).
  destruct (draws randn n g1) as [ts g2]. simpl in *. now rewrite IH.
Qed.

Lemma randn_times_draws (n : nat) (w : World Rng Cfg) :
  randn_times randn n w
  = (Ok (fst (draws randn n (rng w))),
     {| force_fallback := force_fallback w; rng := snd (draws randn n (rng w)) |}).
Proof.
  revert w. induction n as [|n IH]; intros w; simpl.
  - destruct w; reflexivity.
  - unfold bind at 1, torch_randn at 1.
    destruct (randn (rng w)) as [t g1].
    unfold bind at 1. rewrite IH. simpl.
    destruct (draws randn n g1) as [ts g2]. reflexivity.
Qed.

Lemma gen_rand_args_world (mod_ : NNModule Tensor) (w : World Rng Cfg) :
  gen_rand_args randn mod_ w
  = (Ok (drawn_args randn mod_ w), world_after_draw randn mod_ w).
Proof. apply randn_times_draws. Qed.

(** X9.  [gen_rand_args] never raises: it returns as many tensors as
    [forward] has parameters, the results of that many successive calls
    of [torch.randn] in order, advances the random generator by exactly
    these calls and leaves the force-fallback setting alone. *)
Theorem gen_rand_args_draws (mod_ : NNModule Tensor) (w : World Rng Cfg) :
  gen_rand_args randn mod_ w
  = (Ok (fst (draws randn (nparams mod_) (rng w))),
     {| force_fallback := force_fallback w;
        rng := snd (draws randn (nparams mod_) (rng w)) |}) /\
  length (fst (draws randn (nparams mod_) (rng w))) = nparams mod_.
Proof. split; [apply randn_times_draws | apply draws_length]. Qed.

(** *** [allclose] *)

Lemma unwrap_VSeq (k : bool) (l : list (Value Tensor)) :
  unwrap (VSeq k l) = match l with [x] => x | _ => VSeq k l end.
Proof. destruct k, l as [|x [|y l]]; reflexivity. Qed.

Lemma allclose_sequences (k1 k2 : bool) (es acts : list (Value Tensor)) :
  length es <> 1 -> length acts <> 1 ->
  allclose torch_allclose (VSeq k1 es) (VSeq k2 acts)
  = if Nat.eqb (length es) (length acts)
    then all_allclose torch_allclose (zip es acts)
    else Ok false.
Proof.
  intros He Ha. unfold allclose. rewrite !unwrap_VSeq.
  destruct es as [|e [|e' es]]; [|now destruct He|];
    (destruct acts as [|a [|a' acts]]; [|now destruct Ha|]);
    destruct k1, k2; reflexivity.
Qed.

Lemma all_allclose_tensors (ts us : list Tensor) :
  all_allclose torch_allclose (zip (VTensor <$> ts) (VTensor <$> us)) = Ok true /\
  length ts = length us
  <-> Forall2 (fun t u => torch_allclose t u = Ok true) ts us.
Proof.
  revert us. induction ts as [|t ts IH]; intros [|u us]; simpl.
  - split; [constructor | auto].
  - split; [intros [_ H]; discriminate | intros H; inversion H].
  - split; [intros [_ H]; discriminate | intros H; inversion H].
  - specialize (IH us). split.
    + intros [H Hlen]. injection Hlen as Hlen.
      destruct (torch_allclose t u) as [[|]|e] eqn:Htu; try discriminate.
      constructor; [exact Htu | apply IH; auto].
    + intros H. inversion H as [|? ? ? ? Htu Hrest]; subst.
      rewrite Htu. apply IH in Hrest as [Hall Hlen]. split; [exact Hall | now f_equal].
Qed.

(** X10.  On two sequences of tensors, tuples or lists in any mix,
    [allclose] returns true exactly when the sequences have the same
    length and [torch.allclose] returns true on every pair of tensors at
    the same position; one-element sequences included. *)
Theorem allclose_tensor_sequences (k1 k2 : bool) (ts us : list Tensor) :
  allclose torch_allclose (VSeq k1 (VTensor <$> ts)) (VSeq k2 (VTensor <$> us)) = Ok true
  <-> Forall2 (fun t u => torch_allclose t u = Ok true) ts us.
Proof.
  destruct (decide (length ts = 1)) as [Ht|Ht];
    destruct (decide (length us = 1)) as [Hu|Hu].
  - destruct ts as [|t [|]]; try discriminate. destruct us as [|u [|]]; try discriminate.
    replace (allclose torch_allclose (VSeq k1 (VTensor <$> [t])) (VSeq k2 (VTensor <$> [u])))
      with (torch_allclose t u) by (destruct k1, k2; reflexivity).
    split; [intros H; repeat constructor; exact H | intros H; now inversion H].
  - destruct ts as [|t [|]]; try discriminate.
    split.
    + intros H. exfalso. revert H. unfold allclose. rewrite !unwrap_VSeq.
      destruct us as [|u [|u' us]]; [|now destruct Hu|]; destruct k1, k2; discriminate.
    + intros H. apply Forall2_length in H. simpl in H. congruence.
  - destruct us as [|u [|]]; try discriminate.
    split.
    + intros H. exfalso. revert H. unfold allclose. rewrite !unwrap_VSeq.
      destruct ts as [|t [|t' ts]]; [|now destruct Ht|]; destruct k1, k2; discriminate.
    + intros H. apply Forall2_length in H. simpl in H. congruence.
  - rewrite allclose_sequences by (rewrite length_fmap; assumption).
    rewrite !length_fmap, <- all_allclose_tensors.
    destruct (Nat.eqb_spec (length ts) (length us)) as [Hlen|Hlen].
    + split; [intros H; split; assumption | intros [H _]; exact H].
    + split; [discriminate | intros [_ H]; contradiction].
Qed.

Lemma all_allclose_stops (pre_e pre_a : list (Value Tensor)) :
  Forall2 (fun x y => torch_allclose_values torch_allclose x y = Ok true) pre_e pre_a ->
  forall (e a : Value Tensor) (rest_e rest_a : list (Value Tensor)),
    torch_allclose_values torch_allclose e a = Ok false ->
    all_allclose torch_allclose (zip (pre_e ++ e :: rest_e) (pre_a ++ a :: rest_a))
    = Ok false.
Proof.
  induction 1 as [|x y pre_e pre_a Hxy _ IH]; intros e a rest_e rest_a Hea; simpl.
  - rewrite Hea. reflexivity.
  - rewrite Hxy. now apply IH.
Qed.

(** X11.  On two sequences of the same length, the first pair on which
    [torch.allclose] returns false decides: [allclose] returns false and
    the later pairs are not compared, whatever they hold. *)
Theorem allclose_stops_at_first_mismatch (k1 k2 : bool)
  (pre_e pre_a rest_e rest_a : list (Value Tensor)) (e a : Value Tensor) :
  Forall2 (fun x y => torch_allclose_values torch_allclose x y = Ok true) pre_e pre_a ->
  torch_allclose_values torch_allclose e a = Ok false ->
  length rest_e = length rest_a ->
  allclose torch_allclose (VSeq k1 (pre_e ++ e :: rest_e)) (VSeq k2 (pre_a ++ a :: rest_a))
  = Ok false.
Proof.
  intros Hpre Hea Hrest.
  pose proof (Forall2_length _ _ _ Hpre) as Hlen.
  destruct (decide (length (pre_e ++ e :: rest_e) = 1)) as [H1|H1].
  - rewrite length_app in H1. simpl in H1.
    destruct pre_e; [|simpl in H1; lia]. destruct rest_e; [|simpl in H1; lia].
    destruct pre_a; [|discriminate]. destruct rest_a; [|discriminate].
    destruct e as [x| | |], a as [y| | |]; try discriminate.
    simpl in Hea. destruct k1, k2; exact Hea.
  - assert (H2 : length (pre_a ++ a :: rest_a) <> 1).
    { rewrite length_app in H1 |- *. simpl in *. lia. }
    rewrite allclose_sequences by assumption.
    replace (Nat.eqb _ _) with true
      by (symmetry; apply Nat.eqb_eq; rewrite !length_app; simpl; lia).
    now apply all_allclose_stops.
Qed.

(** X12.  Two sequences of different lengths, neither of one element, are
    not close, and [torch.allclose] is not consulted: the result is false
    whatever the sequences hold. *)
Theorem allclose_length_mismatch (k1 k2 : bool) (es acts : list (Value Tensor)) :
  length es <> 1 -> length acts <> 1 -> length es <> length acts ->
  allclose torch_allclose (VSeq k1 es) (VSeq k2 acts) = Ok false.
Proof.
  intros He Ha Hne. rewrite allclose_sequences by assumption.
  now apply Nat.eqb_neq in Hne as ->.
Qed.

(** X13.  A tensor against a sequence that does not have exactly one
    element, in either order, raises [RuntimeError("Unexpected types")];
    so does any comparison with a value that is neither a tensor nor a
    sequence. *)
Theorem allclose_unexpected_types (t : Tensor) (k : bool)
  (l : list (Value Tensor)) (v : Value Tensor) :
  length l <> 1 ->
  allclose torch_allclose (VTensor t) (VSeq k l) = Raise (RuntimeError "Unexpected types") /\
  allclose torch_allclose (VSeq k l) (VTensor t) = Raise (RuntimeError "Unexpected types") /\
  allclose torch_allclose VOther v = Raise (RuntimeError "Unexpected types") /\
  allclose torch_allclose v VOther = Raise (RuntimeError "Unexpected types").
Proof.
  intros Hl. unfold allclose. rewrite !unwrap_VSeq.
  split; [|split; [|split]].
  - destruct l as [|x [|y l]]; [|now destruct Hl|]; destruct k; reflexivity.
  - destruct l as [|x [|y l]]; [|now destruct Hl|]; destruct k; reflexivity.
  - reflexivity.
  - destruct (unwrap v); reflexivity.
Qed.

(** X14.  [allclose] does not tell a tuple from a list: replacing one by
    the other with the same items, on either side, changes nothing. *)
Theorem allclose_tuple_or_list (l : list (Value Tensor)) (v : Value Tensor) :
  allclose torch_allclose (VTuple l) v = allclose torch_allclose (VList l) v /\
  allclose torch_allclose v (VTuple l) = allclose torch_allclose v (VList l).
Proof.
  unfold allclose. split.
  - destruct l as [|x [|y l]]; simpl; destruct (unwrap v); reflexivity.
  - destruct l as [|x [|y l]]; simpl; destruct (unwrap v); reflexivity.
Qed.

End HarnessBehaviour.

Section HarnessErrorPaths.

Import Harness.
Local Open Scope list_scope.

Context {Tensor Rng Cfg : Type}.
Variable randn : Rng -> Tensor * Rng.
Variable torch_allclose : Tensor -> Tensor -> result bool.
Variable re_search : string -> string -> bool.
Variable extract_compiled_graph :
  NNModule Tensor -> list Tensor -> Cfg -> result (CompiledModule (Tensor := Tensor)).

Local Abbreviation verify :=
  (verify_reusing_compiled_graph randn torch_allclose re_search extract_compiled_graph).

Lemma gen_rand_args_pure (mod_ : NNModule Tensor) (w : World Rng Cfg) :
  gen_rand_args randn mod_ w
  = (Ok (drawn_args randn mod_ w), world_after_draw randn mod_ w).
Proof. apply gen_rand_args_world. Qed.

Lemma verify_extraction_path (mod_ : NNModule Tensor)
  (exception_msg_pattern : option string) (ncase : Z) (w : World Rng Cfg)
  (out : Value Tensor) (msg : string) :
  forward mod_ (drawn_args randn mod_ w) = Ok out ->
  extract_compiled_graph mod_ (drawn_args randn mod_ w) (force_fallback w)
    = Raise (RuntimeError msg) ->
  verify mod_ exception_msg_pattern ncase w
  = (match exception_msg_pattern with
     | None => Raise (RuntimeError msg)
     | Some pat =>
         if re_search pat msg then Ok tt
         else Raise (RuntimeError (mismatch_message msg))
     end,
     world_after_draw randn mod_ w).
Proof.
  intros Hout Hext. unfold verify_reusing_compiled_graph.
  unfold bind at 1. rewrite gen_rand_args_pure.
  unfold bind at 1, lift at 1. rewrite Hout.
  unfold bind at 1, get_force_fallback at 1.
  change (force_fallback (world_after_draw randn mod_ w)) with (force_fallback w).
  rewrite Hext.
  destruct exception_msg_pattern as [pat|]; [|reflexivity].
  destruct (re_search pat msg); reflexivity.
Qed.

(** X15.  When extraction raises a [RuntimeError]: with no pattern
    expected the same error is raised again; with a pattern that the
    message matches the harness returns; with a pattern that it does not
    match the harness raises a [RuntimeError] that quotes the message.  No
    sample is drawn in any of the three cases. *)
Theorem verify_extraction_error (mod_ : NNModule Tensor)
  (exception_msg_pattern : option string) (ncase : Z) (w : World Rng Cfg)
  (out : Value Tensor) (msg : string) :
  forward mod_ (drawn_args randn mod_ w) = Ok out ->
  extract_compiled_graph mod_ (drawn_args randn mod_ w) (force_fallback w)
    = Raise (RuntimeError msg) ->
  verify mod_ exception_msg_pattern ncase w
  = (match exception_msg_pattern with
     | None => Raise (RuntimeError msg)
     | Some pat =>
         if re_search pat msg then Ok tt
         else Raise (RuntimeError (mismatch_message msg))
     end,
     world_after_draw randn mod_ w).
Proof. apply verify_extraction_path. Qed.

(** X16.  An exception of extraction that is not a [RuntimeError] is not
    caught: it leaves the harness unchanged, also when a pattern is
    expected that its message would match. *)
Theorem verify_other_exception (mod_ : NNModule Tensor)
  (exception_msg_pattern : option string) (ncase : Z) (w : World Rng Cfg)
  (out : Value Tensor) (msg : string) :
  forward mod_ (drawn_args randn mod_ w) = Ok out ->
  extract_compiled_graph mod_ (drawn_args randn mod_ w) (force_fallback w)
    = Raise (TypeError msg) ->
  verify mod_ exception_msg_pattern ncase w
  = (Raise (TypeError msg), world_after_draw randn mod_ w).
Proof.
  intros Hout Hext. unfold verify_reusing_compiled_graph.
  unfold bind at 1. rewrite gen_rand_args_pure.
  unfold bind at 1, lift at 1. rewrite Hout.
  unfold bind at 1, get_force_fallback at 1.
  change (force_fallback (world_after_draw randn mod_ w)) with (force_fallback w).
  rewrite Hext. reflexivity.
Qed.

(** X17.  When a pattern is expected and extraction succeeds, the harness
    raises a [RuntimeError] that names the pattern; the compiled module is
    not called and no sample is drawn. *)
Theorem verify_missing_exception (mod_ : NNModule Tensor) (pat : string)
  (ncase : Z) (w : World Rng Cfg) (out : Value Tensor)
  (optimized_mod : CompiledModule (Tensor := Tensor)) :
  forward mod_ (drawn_args randn mod_ w) = Ok out ->
  extract_compiled_graph mod_ (drawn_args randn mod_ w) (force_fallback w)
    = Ok optimized_mod ->
  verify mod_ (Some pat) ncase w
  = (Raise (RuntimeError (missing_exception_message pat)),
     world_after_draw randn mod_ w).
Proof.
  intros Hout Hext. unfold verify_reusing_compiled_graph.
  unfold bind at 1. rewrite gen_rand_args_pure.
  unfold bind at 1, lift at 1. rewrite Hout.
  unfold bind at 1, get_force_fallback at 1.
  change (force_fallback (world_after_draw randn mod_ w)) with (force_fallback w).
  rewrite Hext. reflexivity.
Qed.

(** X18.  When the eager call of the module on the first arguments raises,
    that exception leaves the harness, whatever pattern is expected and
    whatever extraction would have done. *)
Theorem verify_eager_failure (mod_ : NNModule Tensor)
  (exception_msg_pattern : option string) (ncase : Z) (w : World Rng Cfg)
  (e : exn) :
  forward mod_ (drawn_args randn mod_ w) = Raise e ->
  verify mod_ exception_msg_pattern ncase w
  = (Raise e, world_after_draw randn mod_ w).
Proof.
  intros Hout. unfold verify_reusing_compiled_graph.
  unfold bind at 1. rewrite gen_rand_args_pure.
  unfold bind at 1, lift at 1. rewrite Hout. reflexivity.
Qed.



Lemma check_cases_raises (mod_ : NNModule Tensor)
  (optimized_mod : CompiledModule (Tensor := Tensor)) (e : exn) (n : nat) :
  forall (i s : nat) (acc : list nat) (w : World Rng Cfg) (a : list Tensor),
    Forall (fun a' => exists b : bool,
              compare_sample torch_allclose mod_ optimized_mod a' = Ok b)
           (take i (samples randn mod_ n w)) ->
    samples randn mod_ n w !! i = Some a ->
    compare_sample torch_allclose mod_ optimized_mod a = Raise e ->
    check_cases randn torch_allclose mod_ optimized_mod (seq s n) acc w
    = (Raise e, drawn randn mod_ (S i) w).
Proof.
  induction n as [|n IH]; intros i s acc w a Hbefore Hi Ha; [discriminate|].
  simpl in Hbefore, Hi |- *.
  rewrite gen_rand_args_pure in Hbefore, Hi |- *.
  unfold bind at 1. rewrite gen_rand_args_pure.
  destruct i as [|i].
  - injection Hi as <-. unfold compare_sample in Ha.
    unfold bind at 1, lift at 1.
    destruct (forward mod_ _) as [expected|e1]; [|now injection Ha as ->].
    unfold bind at 1, lift at 1.
    destruct (optimized_mod _) as [actual|e1]; [|now injection Ha as ->].
    unfold bind at 1, lift at 1. rewrite Ha. reflexivity.
  - simpl in Hbefore, Hi. apply Forall_cons in Hbefore as [[b Hb] Hbefore].
    unfold compare_sample in Hb.
    unfold bind at 1, lift at 1.
    destruct (forward mod_ _) as [expected|e1]; [|discriminate].
    unfold bind at 1, lift at 1.
    destruct (optimized_mod _) as [actual|e1]; [|discriminate].
    unfold bind at 1, lift at 1. rewrite Hb.
    now apply IH with (a := a).
Qed.

(** X20.  With no pattern expected and a compiled module at hand, when
    the comparison of some sample raises and every earlier sample yields a
    verdict, that exception leaves the harness and the later samples are
    not drawn; the failures counted so far are not reported. *)
Theorem verify_sample_exception (mod_ : NNModule Tensor) (ncase : Z)
  (w : World Rng Cfg) (out shown : Value Tensor)
  (optimized_mod : CompiledModule (Tensor := Tensor))
  (i : nat) (a : list Tensor) (e : exn) :
  forward mod_ (drawn_args randn mod_ w) = Ok out ->
  extract_compiled_graph mod_ (drawn_args randn mod_ w) (force_fallback w)
    = Ok optimized_mod ->
  optimized_mod (drawn_args randn mod_ w) = Ok shown ->
  let w1 := world_after_draw randn mod_ w in
  Forall (fun a' => exists b : bool,
            compare_sample torch_allclose mod_ optimized_mod a' = Ok b)
         (take i (samples randn mod_ (Z.to_nat ncase) w1)) ->
  samples randn mod_ (Z.to_nat ncase) w1 !! i = Some a ->
  compare_sample torch_allclose mod_ optimized_mod a = Raise e ->
  verify mod_ None ncase w = (Raise e, drawn randn mod_ (S i) w1).
Proof.
  intros Hout Hext Hshown w1 Hbefore Hi Ha. unfold verify_reusing_compiled_graph.
  unfold bind at 1. rewrite gen_rand_args_pure.
  unfold bind at 1, lift at 1. rewrite Hout.
  unfold bind at 1, get_force_fallback at 1.
  change (force_fallback (world_after_draw randn mod_ w)) with (force_fallback w).
  rewrite Hext.
  unfold bind at 1, lift at 1. rewrite Hshown.
  unfold bind at 1. fold w1.
  rewrite (check_cases_raises mod_ optimized_mod e (Z.to_nat ncase) i 0 [] w1 a
             Hbefore Hi Ha).
  reflexivity.
Qed.

(** X21.  With a number of cases that is zero or negative the loop does
    not run: once extraction has succeeded and the compiled module has
    returned on the first arguments, the harness returns and no sample is
    drawn. *)
Theorem verify_no_cases (mod_ : NNModule Tensor) (ncase : Z)
  (w : World Rng Cfg) (out shown : Value Tensor)
  (optimized_mod : CompiledModule (Tensor := Tensor)) :
  (ncase <= 0)%Z ->
  forward mod_ (drawn_args randn mod_ w) = Ok out ->
  extract_compiled_graph mod_ (drawn_args randn mod_ w) (force_fallback w)
    = Ok optimized_mod ->
  optimized_mod (drawn_args randn mod_ w) = Ok shown ->
  verify mod_ None ncase w = (Ok tt, world_after_draw randn mod_ w).
Proof.
  intros Hn Hout Hext Hshown. unfold verify_reusing_compiled_graph.
  unfold bind at 1. rewrite gen_rand_args_pure.
  unfold bind at 1, lift at 1. rewrite Hout.
  unfold bind at 1, get_force_fallback at 1.
  change (force_fallback (world_after_draw randn mod_ w)) with (force_fallback w).
  rewrite Hext.
  unfold bind at 1, lift at 1. rewrite Hshown.
  replace (Z.to_nat ncase) with 0 by lia. reflexivity.
Qed.


(** X23.  Nested scopes: inside two nested [force_fallback_ctx_mgr]
    blocks the block runs with the inner setting, and after both the
    setting found before the outer one is back, whether the block returns
    or raises. *)
Theorem force_fallback_ctx_mgr_nested (A : Type) (outer inner : Cfg)
  (block : M A) (w : World Rng Cfg) :
  let run := block {| force_fallback := inner; rng := rng w |} in
  force_fallback_ctx_mgr outer A (force_fallback_ctx_mgr inner A block) w
  = (fst run, {| force_fallback := force_fallback w; rng := rng (snd run) |}).
Proof.
  intros run. subst run.
  unfold force_fallback_ctx_mgr, bind, get_force_fallback, set_force_fallback,
    try_finally. simpl.
  destruct (block _) as [r w1]. reflexivity.
Qed.


End HarnessErrorPaths.

(** ** The further properties on the test modules *)

Section HarnessWitnesses.

Import Harness Scenario.
Local Open Scope list_scope.

Local Abbreviation verify_with extract :=
  (verify_reusing_compiled_graph counter_randn exact_allclose search extract).

Lemma allclose_stops_at_first_mismatch_witness :
  allclose exact_allclose
    (VSeq true ([VTensor 1%Z] ++ VTensor 2%Z :: [VOther]))
    (VSeq false ([VTensor 1%Z] ++ VTensor 3%Z :: [VTensor 0%Z]))
  = Ok false.
Proof.
  apply allclose_stops_at_first_mismatch.
  - repeat constructor.
  - reflexivity.
  - reflexivity.
Defined.

Lemma allclose_length_mismatch_witness :
  allclose exact_allclose (VSeq true []) (VSeq false [VTensor 1%Z; VOther]) = Ok false.
Proof. apply allclose_length_mismatch; simpl; lia. Defined.

Lemma allclose_unexpected_types_witness :
  allclose exact_allclose (VTensor 1%Z) (VSeq true [VTensor 1%Z; VTensor 2%Z])
  = Raise (RuntimeError "Unexpected types").
Proof.
  apply (allclose_unexpected_types exact_allclose 1%Z true
           [VTensor 1%Z; VTensor 2%Z] VOther).
  simpl. lia.
Defined.

Lemma verify_extraction_error_witness :
  fst (verify_with fallback_when_forced (ModuleSub ())
         (Some "fallback.*aten::sub") 10 forced_world) = Ok tt.
Proof.
  assert (Hext : fallback_when_forced (ModuleSub ())
                   (drawn_args counter_randn (ModuleSub ()) forced_world)
                   (force_fallback forced_world)
                 = Raise (RuntimeError "fallback: aten::sub"))
    by (vm_compute; reflexivity).
  rewrite (verify_extraction_error counter_randn exact_allclose search
             fallback_when_forced (ModuleSub ()) (Some "fallback.*aten::sub") 10
             forced_world (VTensor (-1)%Z) "fallback: aten::sub" eq_refl Hext).
  vm_compute. reflexivity.
Defined.

Lemma verify_other_exception_witness :
  fst (verify_with ill_typed (ModuleSub ())
         (Some "fallback.*aten::sub") 10 initial_world)
  = Raise (TypeError "fallback: aten::sub").
Proof.
  rewrite (verify_other_exception counter_randn exact_allclose search
             ill_typed (ModuleSub ()) (Some "fallback.*aten::sub") 10
             initial_world (VTensor (-1)%Z) "fallback: aten::sub" eq_refl eq_refl).
  reflexivity.
Defined.

Lemma verify_missing_exception_witness :
  fst (verify_with exact (ModuleSub ()) (Some "fallback") 10 initial_world)
  = Raise (RuntimeError "Expect an exception matching pattern fallback").
Proof.
  rewrite (verify_missing_exception counter_randn exact_allclose search
             exact (ModuleSub ()) "fallback" 10 initial_world
             (VTensor (-1)%Z) exact_forward eq_refl eq_refl).
  reflexivity.
Defined.

Lemma verify_eager_failure_witness :
  fst (verify_with exact (ModuleBroken ()) None 10 initial_world)
  = Raise (RuntimeError "forward failed").
Proof.
  rewrite (verify_eager_failure counter_randn exact_allclose search
             exact (ModuleBroken ()) None 10 initial_world
             (RuntimeError "forward failed") eq_refl).
  reflexivity.
Defined.

Lemma verify_sample_exception_witness :
  fst (verify_with breaking (ModuleSub ()) None 10 initial_world)
  = Raise (RuntimeError "backend failure").
Proof.
  assert (Hs : samples counter_randn (ModuleSub ()) (Z.to_nat 10)
                 (world_after_draw counter_randn (ModuleSub ()) initial_world)
               = [[2;3];[4;5];[6;7];[8;9];[10;11];[12;13];[14;15];[16;17];
                  [18;19];[20;21]]%Z)
    by (vm_compute; reflexivity).
  rewrite (verify_sample_exception counter_randn exact_allclose search
             breaking (ModuleSub ()) 10 initial_world
             (VTensor (-1)%Z) (VTensor 0%Z) breaking_forward
             2 [6%Z; 7%Z] (RuntimeError "backend failure")
             eq_refl eq_refl eq_refl).
  - reflexivity.
  - rewrite Hs. simpl.
    repeat (apply Forall_cons; split; [exists false; vm_compute; reflexivity|]).
    constructor.
  - rewrite Hs. reflexivity.
  - vm_compute. reflexivity.
Defined.

Lemma verify_no_cases_witness :
  fst (verify_with exact (ModuleSub ()) None (-3) initial_world) = Ok tt.
Proof.
  rewrite (verify_no_cases counter_randn exact_allclose search
             exact (ModuleSub ()) (-3) initial_world
             (VTensor (-1)%Z) (VTensor (-1)%Z) exact_forward
             ltac:(lia) eq_refl eq_refl eq_refl).
  reflexivity.
Defined.


End HarnessWitnesses.
